(** * Cloudinary photo classifier: a shallow embedding of [classify_cloudinary.py]

    The first part embeds the script function by function, in the order of
    the source.  Library calls the script does not define itself (the
    Cloudinary API, HTTP, PIL, CLIP, k-means, [strptime], numpy division)
    are the fields of the class [Libraries]; a Python exception is the
    outcome [Raised]; [while True] runs on fuel.  The second part states and
    proves the properties of the pipeline. *)

From Stdlib Require Import ZArith QArith Qabs Lqa Ascii String List.
From Stdlib Require Import Floats.SpecFloat.
From stdpp Require Import gmap strings list sorting.

Local Open Scope string_scope.
Local Open Scope list_scope.
Local Open Scope nat_scope.

(** ** Python outcomes *)

(** The result of running a Python expression: a value, or an exception
    (anything derived from [Exception]; the script never inspects which). *)
Inductive outcome (A : Type) : Type :=
| Returned (a : A)
| Raised.
Arguments Returned {A} a.
Arguments Raised {A}.

#[global] Instance outcome_ret : MRet outcome := λ A a, Returned a.

#[global] Instance outcome_bind : MBind outcome := λ A B k m,
  match m with
  | Returned a => k a
  | Raised => Raised
  end.

(** [try: body  except Exception: handler] *)
Definition try_except {A : Type} (body : outcome A) (handler : A) : A :=
  match body with
  | Returned a => a
  | Raised => handler
  end.

(** [l[i]]: [IndexError] out of range. *)
Definition getitem {A : Type} (l : list A) (i : nat) : outcome A :=
  match l !! i with
  | Some a => Returned a
  | None => Raised
  end.

(** ** Data *)

(** A scalar as it ends up in [tags.json]: EXIF date fields are strings, or
    numbers when the file stores them with another type. *)
Inductive pyval : Type :=
| PStr (s : string)
| PNum (n : Z).

(** One entry of the [resources] list of a listing response. *)
Record resource : Type := {
  res_public_id : string;
  res_secure_url : string;
  res_created_at : option string
}.

(** What the script reads of a listing response: [result.get("resources", [])]
    and [result.get("next_cursor")]. *)
Record page : Type := {
  page_resources : list resource;
  page_next_cursor : option string
}.

(** The dictionaries [fetch_all_images] returns. *)
Record img_data : Type := {
  public_id : string;
  url : string;
  folder : string;
  created_at : string
}.

Record response : Type := {
  status_code : Z;
  content : string
}.

Record palette_entry : Type := {
  r : Z;
  g : Z;
  b : Z;
  weight : Q
}.

(** The value stored under a [public_id]. *)
Record tag_record : Type := {
  tr_url : string;
  tr_folder : string;
  tr_created_at : pyval;
  tr_content : list string;
  tr_style : list string;
  tr_lighting : list string;
  tr_colors : list string;
  tr_color_palette : list palette_entry;
  tr_all_tags : list string
}.

(** What [json.load] makes of [tags.json]: an object, another value that has
    a [len] (array, string), or one that has none (number, boolean, null). *)
Inductive json_doc : Type :=
| JObject (m : gmap string tag_record)
| JSized (n : nat)
| JUnsized.

(** The file [tags.json] on disk. *)
Inductive store_file : Type :=
| Missing
| Unparsable
| Parsed (doc : json_doc).

(** ** Configuration (lines 52-170) *)

Definition TAGS_PER_IMAGE : nat := 5.
Definition STYLE_TAGS_PER_IMAGE : nat := 3.
Definition LIGHTING_TAGS_PER_IMAGE : nat := 2.
Definition COLOR_TAGS_PER_IMAGE : nat := 2.

Definition CONTENT_LABELS : list string :=
  ["mountain"; "beach"; "ocean"; "forest"; "desert"; "lake"; "river";
   "waterfall"; "sunset"; "sunrise"; "clouds"; "sky"; "snow"; "ice";
   "volcano"; "canyon"; "valley"; "cliff"; "rock formation"; "cave"; "field";
   "meadow"; "hills"; "countryside"; "coast"; "island"; "rainforest";
   "jungle"; "savanna"; "tundra"; "city"; "cityscape"; "skyline"; "building";
   "skyscraper"; "architecture"; "street"; "road"; "bridge"; "tunnel";
   "alley"; "plaza"; "square"; "park"; "monument"; "statue"; "tower";
   "church"; "temple"; "mosque"; "castle"; "house"; "home"; "apartment";
   "downtown"; "suburb"; "industrial area"; "construction"; "ruins";
   "ancient architecture"; "modern architecture"; "dog"; "cat"; "bird";
   "horse"; "cow"; "sheep"; "elephant"; "lion"; "tiger"; "bear"; "wolf";
   "deer"; "rabbit"; "squirrel"; "fish"; "whale"; "dolphin"; "shark";
   "butterfly"; "insect"; "spider"; "eagle"; "owl"; "penguin"; "monkey";
   "gorilla"; "giraffe"; "zebra"; "wildlife"; "pet"; "farm animal";
   "portrait"; "person"; "people"; "face"; "child"; "baby"; "teenager";
   "adult"; "elderly person"; "family"; "couple"; "group of people"; "crowd";
   "selfie"; "profile"; "close-up portrait"; "candid"; "model";
   "fashion model"; "food"; "meal"; "drink"; "coffee"; "wine"; "fruit";
   "vegetables"; "dessert"; "flower"; "bouquet"; "plant"; "tree"; "garden";
   "book"; "camera"; "phone"; "computer"; "car"; "bicycle"; "motorcycle";
   "airplane"; "boat"; "ship"; "furniture"; "interior"; "room"; "kitchen";
   "bedroom"; "living room"; "concert"; "festival"; "party"; "celebration";
   "wedding"; "sports"; "game"; "performance"; "dance"; "music"; "art";
   "painting"; "sculpture"; "exhibition"; "travel"; "vacation"; "adventure";
   "hiking"; "camping"; "skiing"; "surfing"; "swimming"; "running"; "yoga";
   "meditation"; "work"; "office"; "meeting"; "rain"; "storm"; "lightning";
   "fog"; "mist"; "rainbow"; "winter"; "spring"; "summer"; "autumn";
   "fall colors"; "cherry blossoms"; "snow scene"; "pattern"; "texture";
   "abstract"; "geometric"; "symmetry"; "reflection"; "shadow"; "silhouette";
   "motion blur"; "bokeh"; "depth of field"; "minimalist"; "negative space";
   "black and white"; "monochrome"; "colorful"].

Definition STYLE_LABELS : list string :=
  ["cinematic"; "documentary"; "street photography"; "landscape photography";
   "portrait photography"; "wildlife photography"; "macro photography";
   "aerial photography"; "underwater photography"; "night photography";
   "astrophotography"; "long exposure"; "time lapse"; "HDR"; "panorama";
   "vintage"; "retro"; "film photography"; "polaroid"; "analog"; "grainy";
   "clean"; "crisp"; "sharp"; "soft focus"; "dreamy"; "ethereal"; "moody";
   "dramatic"; "minimalist"; "maximalist"; "surreal"; "abstract";
   "high contrast"; "low contrast"; "desaturated"; "oversaturated";
   "warm tones"; "cool tones"; "sepia"; "black and white"; "color grading";
   "film grain"; "vignette"; "tilt-shift"; "lens flare";
   "impressionist style"; "expressionist style"; "pop art style";
   "minimalist style"; "bauhaus style"; "art deco style"; "modernist";
   "digital painting"; "photo manipulation"; "composite"; "CGI";
   "anime style"; "cartoon style"; "illustration style"].

Definition LIGHTING_LABELS : list string :=
  ["golden hour"; "blue hour"; "sunrise light"; "sunset light"; "midday sun";
   "overcast light"; "soft light"; "harsh light"; "dappled light";
   "backlight"; "backlit"; "rim light"; "silhouette lighting";
   "studio lighting"; "flash photography"; "neon lighting"; "street lights";
   "candlelight"; "firelight"; "stage lighting"; "spotlight"; "bright";
   "dark"; "low light"; "high key"; "low key"; "dramatic lighting";
   "flat lighting"; "even lighting"; "moody lighting";
   "atmospheric lighting"; "front lit"; "side lit"; "top lit"; "bottom lit";
   "chiaroscuro"; "Rembrandt lighting"; "natural window light";
   "diffused light"].

Definition COLOR_LABELS : list string :=
  ["warm colors"; "cool colors"; "pastel colors"; "vibrant colors";
   "muted colors"; "earth tones"; "jewel tones"; "neon colors";
   "monochromatic"; "red dominant"; "blue dominant"; "green dominant";
   "yellow dominant"; "orange dominant"; "purple dominant"; "pink dominant";
   "brown dominant"; "gray dominant"; "black dominant"; "white dominant";
   "high saturation"; "low saturation"; "desaturated"; "black and white";
   "grayscale"; "sepia tone"; "duotone"; "triadic colors";
   "complementary colors"; "analogous colors"; "colorful"; "multicolored"].

(** A label set with the number of tags asked of it. *)
Record LabelTaxonomy : Type := {
  tx_name : string;
  tx_labels : list string;
  tx_top_k : nat
}.

(** The four label sets as the loop passes them to [get_clip_tags]
    (lines 516-519 and 599-602): the only calls of it. *)
Definition taxonomies : list LabelTaxonomy :=
  [ {| tx_name := "content"; tx_labels := CONTENT_LABELS; tx_top_k := TAGS_PER_IMAGE |};
    {| tx_name := "style"; tx_labels := STYLE_LABELS; tx_top_k := STYLE_TAGS_PER_IMAGE |};
    {| tx_name := "lighting"; tx_labels := LIGHTING_LABELS;
       tx_top_k := LIGHTING_TAGS_PER_IMAGE |};
    {| tx_name := "colors"; tx_labels := COLOR_LABELS;
       tx_top_k := COLOR_TAGS_PER_IMAGE |} ].

(** ** The libraries the script calls *)

Class Libraries : Type := {
  (** a decoded [PIL.Image] *)
  image : Type;
  (** the asset library behind the Cloudinary API, as far as listing sees it *)
  api_state : Type;
  (** [cloudinary.api.resources_by_asset_folder(folder, max_results=...,
      next_cursor=...)] *)
  resources_by_asset_folder :
    string → nat → option string → api_state → outcome page * api_state;
  (** [requests.get(url, timeout=...)] *)
  requests_get : string → nat → outcome response;
  (** [Image.open(BytesIO(content))] *)
  Image_open : string → outcome image;
  (** [image.mode] *)
  image_mode : image → string;
  (** [image.convert(mode)] *)
  image_convert : image → string → outcome image;
  (** [image._getexif()]: [None] or the items of the EXIF dictionary *)
  image_getexif : image → outcome (option (list (N * pyval)));
  (** [datetime.strptime(value, "%Y:%m:%d %H:%M:%S").isoformat()] *)
  strptime_isoformat : string → outcome string;
  (** the body of [calculate_saturation]: thumbnail, [rgb_to_hsv] per pixel,
      [np.mean] *)
  mean_saturation : image → outcome spec_float;
  (** preprocess, tokenize, encode, normalise and multiply: the similarity
      vector of an image against a list of prompts (lines 288-303) *)
  clip_similarity : image → list string → outcome (list spec_float);
  (** [np.array(img).reshape(-1, 3)] of the 150x150 thumbnail *)
  thumbnail_pixels : image → outcome (list (Z * Z * Z));
  (** [KMeans(n_clusters, random_state=42, n_init=10).fit(pixels)]: its
      [cluster_centers_] and [labels_] *)
  KMeans_fit : nat → list (Z * Z * Z) → outcome (list (Q * Q * Q) * list nat);
  (** [count / total] in binary64, as the real number it denotes *)
  true_divide : nat → nat → Q
}.

(** ** Library functions with a fixed meaning *)

(** [str.lower] on the ASCII range: the label sets of the script are ASCII. *)
Definition lower_ascii (c : ascii) : ascii :=
  let n := nat_of_ascii c in
  if (65 <=? n)%nat && (n <=? 90)%nat then ascii_of_nat (n + 32) else c.

Fixpoint lower (s : string) : string :=
  match s with
  | EmptyString => EmptyString
  | String c s' => String (lower_ascii c) (lower s')
  end.

(** Scores compared as [topk] sorts them: [x] may stand before [y] unless it
    is strictly smaller. *)
Definition score_ge (x y : nat * spec_float) : Prop := SFltb x.2 y.2 = false.

#[global] Instance score_ge_dec x y : Decision (score_ge x y).
Proof. unfold score_ge. apply _. Defined.

(** [tensor.topk(k)]: [RuntimeError] when [k] exceeds the number of scores,
    otherwise the positions of the [k] largest scores, best first.  The order
    among equal or NaN scores is the library's own; here it is the one the
    merge sort leaves. *)
Definition topk (k : nat) (similarity : list spec_float) : outcome (list nat) :=
  if decide (k ≤ length similarity)
  then Returned (take k (merge_sort score_ge (imap pair similarity)).*1)
  else Raised.

(** [np.bincount(labels)]: one counter per value up to the largest one. *)
Definition bincount (labels : list nat) : list nat :=
  match labels with
  | [] => []
  | _ :: _ => (λ j, length (filter (λ x, x = j) labels)) <$> seq 0 (S (max_list labels))
  end.

Definition count_ge (x y : nat * nat) : Prop := y.2 ≤ x.2.

#[global] Instance count_ge_dec x y : Decision (count_ge x y).
Proof. unfold count_ge. apply _. Defined.

(** [np.argsort(-counts)]: positions by decreasing count (equal counts in the
    order the merge sort leaves them). *)
Definition argsort_desc (counts : list nat) : list nat :=
  (merge_sort count_ge (imap pair counts)).*1.

(** [int(x)] of a float: truncation towards zero. *)
Definition int_of_float (x : Q) : Z := Z.quot (Qnum x) (Z.pos (Qden x)).

(** [response.raise_for_status()] *)
Definition raise_for_status (resp : response) : outcome unit :=
  if decide (400 ≤ status_code resp < 600)%Z then Raised else Returned ().

(** [PIL.ExifTags.TAGS], the entries for the date fields and their
    neighbours; every other id has another name or none. *)
Definition TAGS : list (N * string) :=
  [(271, "Make"); (272, "Model"); (274, "Orientation"); (305, "Software");
   (306, "DateTime"); (36864, "ExifVersion"); (36867, "DateTimeOriginal");
   (36868, "DateTimeDigitized")]%N.

(** [TAGS.get(tag_id, tag_id)] *)
Definition TAGS_get (tag_id : N) : string + N :=
  match find (λ e : N * string, bool_decide (e.1 = tag_id)) TAGS with
  | Some e => inl e.2
  | None => inr tag_id
  end.

(** [tag_name == 'literal'] *)
Definition tag_name_is (tag_name : string + N) (literal : string) : bool :=
  match tag_name with
  | inl name => bool_decide (name = literal)
  | inr _ => false
  end.

(** [not next_cursor] *)
Definition falsy (next_cursor : option string) : bool :=
  match next_cursor with
  | None => true
  | Some s => bool_decide (s = "")
  end.

(** ** The script *)

Section Script.
Context `{L : Libraries}.

(** *** Listing (lines 182-232 and 654-692) *)

(** The [while True] loop of one folder.  [all_images] holds the listed
    resources, each with the folder written into it by [img["folder"] = folder].
    An exception of the request leaves the loop with what was gathered. *)
Fixpoint fetch_pages (fuel : nat) (folder : string) (next_cursor : option string)
    (all_images : list (resource * string)) (st : api_state)
  : option (list (resource * string) * api_state) :=
  match fuel with
  | O => None
  | S fuel' =>
    match resources_by_asset_folder folder 500 next_cursor st with
    | (Raised, st') => Some (all_images, st')
    | (Returned result, st') =>
      let folder_images := (λ img, (img, folder)) <$> page_resources result in
      let all_images := all_images ++ folder_images in
      let next_cursor := page_next_cursor result in
      if falsy next_cursor then Some (all_images, st')
      else fetch_pages fuel' folder next_cursor all_images st'
    end
  end.

(** [for folder in folders] around that loop. *)
Fixpoint fetch_folders (fuel : nat) (folders : list string)
    (all_images : list (resource * string)) (st : api_state)
  : option (list (resource * string) * api_state) :=
  match folders with
  | [] => Some (all_images, st)
  | folder :: folders' =>
    match fetch_pages fuel folder None all_images st with
    | None => None
    | Some (all_images', st') => fetch_folders fuel folders' all_images' st'
    end
  end.

(** The dictionary built from a listed resource in the final comprehension. *)
Definition to_img_data (e : resource * string) : img_data :=
  {| public_id := res_public_id e.1;
     url := res_secure_url e.1;
     folder := e.2;
     created_at := default "" (res_created_at e.1) |}.

Definition fetch_all_images (fuel : nat) (st : api_state)
  : option (list img_data * api_state) :=
  match fetch_folders fuel ["portfolio"; "rugby"] [] st with
  | None => None
  | Some (all_images, st') => Some (to_img_data <$> all_images, st')
  end.

(** The single-folder listing the entry point defines for itself. *)
Definition fetch_images_from_folder (fuel : nat) (folder_name : string)
    (st : api_state) : option (list img_data * api_state) :=
  match fetch_pages fuel folder_name None [] st with
  | None => None
  | Some (all_images, st') => Some (to_img_data <$> all_images, st')
  end.

(** *** [get_clip_tags] (lines 274-311) *)

(** The body of the [try]. *)
Definition get_clip_tags_try (img : image) (labels : list string) (top_k : nat)
  : outcome (list string) :=
  similarity ← clip_similarity img ((λ label, "a photo of " +:+ label) <$> labels);
  indices ← topk top_k similarity;
  mapM (getitem labels) indices.

Definition get_clip_tags (img : image) (labels : list string) (top_k : nat)
  : list string :=
  try_except (get_clip_tags_try img labels top_k) [].

(** *** [download_image] (lines 313-327) *)

Definition download_image (url : string) : option image :=
  try_except
    (resp ← requests_get url 10;
     _ ← raise_for_status resp;
     img ← Image_open (content resp);
     img ← (if bool_decide (image_mode img ≠ "RGB")
            then image_convert img "RGB" else mret img);
     mret (Some img))
    None.

(** *** [calculate_saturation] (lines 329-352) *)

(** The default [0.5] is exact in binary64. *)
Definition calculate_saturation (img : image) : spec_float :=
  try_except (mean_saturation img) (S754_finite false 4503599627370496 (-53)).

(** *** [get_color_palette] (lines 354-396) *)

(** One turn of the final comprehension, at position [i]. *)
Definition palette_entry_at (colors : list (Q * Q * Q)) (counts : list nat)
    (total : nat) (i : nat) : outcome palette_entry :=
  color ← getitem colors i;
  count ← getitem counts i;
  mret {| r := int_of_float color.1.1;
          g := int_of_float color.1.2;
          b := int_of_float color.2;
          weight := true_divide count total |}.

Definition get_color_palette (img : image) (num_colors : nat) : list palette_entry :=
  try_except
    (pixels ← thumbnail_pixels img;
     '(colors, labels) ← KMeans_fit num_colors pixels;
     let counts := bincount labels in
     let indices := argsort_desc counts in
     mapM (palette_entry_at colors counts (length labels)) indices)
    [{| r := 128; g := 128; b := 128; weight := 1 |}].

(** *** [filter_bw_tags] (lines 398-426) *)

(** The literal [0.15] as Python reads it: the binary64 value
    [0x1.3333333333333p-3]. *)
Definition SATURATION_THRESHOLD : spec_float :=
  S754_finite false 5404319552844595 (-55).

Definition bw_keywords : list string :=
  ["black and white"; "grayscale"; "monochrome"; "sepia tone"; "duotone"].

(** [saturation] is a binary64 float ([np.mean] or the default [0.5]);
    [saturation > SATURATION_THRESHOLD] is the IEEE comparison, false on NaN. *)
Definition filter_bw_tags (color_tags : list string) (saturation : spec_float)
  : list string :=
  if SFltb SATURATION_THRESHOLD saturation then
    let filtered_tags := filter (λ tag, lower tag ∉ bw_keywords) color_tags in
    match filtered_tags with
    | [] => color_tags
    | _ :: _ => filtered_tags
    end
  else color_tags.

(** *** [get_photo_date] (lines 428-468) *)

(** The inner [try]: the parsed date in ISO form, or the raw value when
    [strptime] raises (it also raises on a value that is not a string). *)
Definition parse_or_raw (value : pyval) : pyval :=
  try_except
    (match value with
     | PStr s => iso ← strptime_isoformat s; mret (PStr iso)
     | PNum _ => Raised
     end)
    value.

(** The first item of the dictionary whose tag has the given name. *)
Definition find_tag (tag : string) (exif_data : list (N * pyval)) : option pyval :=
  snd <$> find (λ item : N * pyval, tag_name_is (TAGS_get item.1) tag) exif_data.

Definition get_photo_date (img : image) : option pyval :=
  try_except
    (exif_data ← image_getexif img;
     match exif_data with
     | None => mret None
     | Some exif_data =>
       match find_tag "DateTimeOriginal" exif_data with
       | Some value => mret (Some (parse_or_raw value))
       | None =>
         match find_tag "DateTime" exif_data with
         | Some value => mret (Some (parse_or_raw value))
         | None => mret None
         end
       end
     end)
    None.

(** *** The per-image loop (lines 487-545, repeated as lines 576-625) *)

(** Lines 507-510: the EXIF date, or the upload date of the listing. *)
Definition photo_date_of (img : image) (data : img_data) : pyval :=
  match get_photo_date img with
  | None => PStr (created_at data)
  | Some photo_date => photo_date
  end.

(** The body of the [try] for one image: [None] stands for the [continue]
    after a failed download. *)
Definition process_one (data : img_data) : outcome (option tag_record) :=
  match download_image (url data) with
  | None => mret None
  | Some img =>
    let photo_date := photo_date_of img data in
    let saturation := calculate_saturation img in
    let content_tags := get_clip_tags img CONTENT_LABELS TAGS_PER_IMAGE in
    let style_tags := get_clip_tags img STYLE_LABELS STYLE_TAGS_PER_IMAGE in
    let lighting_tags := get_clip_tags img LIGHTING_LABELS LIGHTING_TAGS_PER_IMAGE in
    let color_tags_raw := get_clip_tags img COLOR_LABELS COLOR_TAGS_PER_IMAGE in
    let color_tags := filter_bw_tags color_tags_raw saturation in
    let color_palette := get_color_palette img 5 in
    let all_tags := content_tags ++ style_tags ++ lighting_tags ++ color_tags in
    mret (Some {| tr_url := url data;
                  tr_folder := folder data;
                  tr_created_at := photo_date;
                  tr_content := content_tags;
                  tr_style := style_tags;
                  tr_lighting := lighting_tags;
                  tr_colors := color_tags;
                  tr_color_palette := color_palette;
                  tr_all_tags := all_tags |})
  end.

(** One turn of the loop: [results[public_id] = ...], or [continue] after a
    failed download or an exception. *)
Definition process_step (results : gmap string tag_record) (data : img_data)
  : gmap string tag_record :=
  match process_one data with
  | Returned (Some rec) => <[public_id data := rec]> results
  | Returned None => results
  | Raised => results
  end.

Definition process_images_only (images : list img_data) : gmap string tag_record :=
  foldl process_step ∅ images.

(** *** [process_all_images] (lines 474-557) *)

(** The full run: nothing is written when the listing is empty; otherwise
    [tags.json] is opened for writing and receives the results. *)
Definition process_all_images (fuel : nat) (st : api_state) (file : store_file)
  : option (store_file * api_state) :=
  match fetch_all_images fuel st with
  | None => None
  | Some ([], st') => Some (file, st')
  | Some (images, st') => Some (Parsed (JObject (process_images_only images)), st')
  end.

(** *** The entry point (lines 636-718) *)

Inductive termination : Type :=
| Completed
| SysExit (code : Z)
| Uncaught.

Record run_end : Type := {
  how : termination;
  tags_json : store_file;
  api_after : api_state
}.

(** Lines 695-699: the existing tags, [{}] when there is no file.
    [json.load] raises on a file that does not parse, and [len] in the
    message raises on a value without length. *)
Definition load_existing_tags (file : store_file) : outcome json_doc :=
  match file with
  | Missing => Returned (JObject ∅)
  | Unparsable => Raised
  | Parsed JUnsized => Raised
  | Parsed doc => Returned doc
  end.

(** [{**existing_tags, **results}]: the keys of [results] win;
    [TypeError] when [existing_tags] is not a mapping. *)
Definition merge_tags (existing_tags : json_doc) (results : gmap string tag_record)
  : outcome (gmap string tag_record) :=
  match existing_tags with
  | JObject m => Returned (results ∪ m)
  | _ => Raised
  end.

Definition main (argv : list string) (fuel : nat) (st : api_state)
    (file : store_file) : option run_end :=
  match argv with
  | _ :: arg :: _ =>
    let folder_arg := lower arg in
    if bool_decide (folder_arg ∈ ["portfolio"; "rugby"]) then
      match load_existing_tags file with
      | Raised => Some {| how := Uncaught; tags_json := file; api_after := st |}
      | Returned existing_tags =>
        match fetch_images_from_folder fuel folder_arg st with
        | None => None
        | Some ([], st') =>
          Some {| how := Completed; tags_json := file; api_after := st' |}
        | Some (images, st') =>
          let results := process_images_only images in
          match merge_tags existing_tags results with
          | Raised =>
            Some {| how := Uncaught; tags_json := file; api_after := st' |}
          | Returned final_results =>
            Some {| how := Completed;
                    tags_json := Parsed (JObject final_results);
                    api_after := st' |}
          end
        end
      end
    else Some {| how := SysExit 1; tags_json := file; api_after := st |}
  | _ =>
    match process_all_images fuel st file with
    | None => None
    | Some (file', st') =>
      Some {| how := Completed; tags_json := file'; api_after := st' |}
    end
  end.

End Script.

(** ** A small library instance for the examples *)

Definition sample_resource (id : string) : resource :=
  {| res_public_id := id;
     res_secure_url := "https://res/" +:+ id;
     res_created_at := Some "2024-01-01T00:00:00Z" |}.

(** Two pages of [portfolio]; [rugby] answers one page and then fails.  The
    state counts the requests. *)
Definition sample_api (folder : string) (max_results : nat)
    (next_cursor : option string) (requests : nat) : outcome page * nat :=
  (match next_cursor with
   | None =>
     if bool_decide (folder = "portfolio") then
       Returned {| page_resources := [sample_resource "p1"; sample_resource "p2"];
                   page_next_cursor := Some "c1" |}
     else if bool_decide (folder = "rugby") then
       Returned {| page_resources := [sample_resource "r1"];
                   page_next_cursor := Some "c2" |}
     else Returned {| page_resources := []; page_next_cursor := None |}
   | Some c =>
     if bool_decide (c = "c1") then
       Returned {| page_resources := [sample_resource "p3"];
                   page_next_cursor := None |}
     else Raised
   end, S requests).


Definition is_digit (c : ascii) : bool :=
  let n := nat_of_ascii c in (48 <=? n) && (n <=? 57).

(** A parser for the examples: the fixed-width form [YYYY:MM:DD HH:MM:SS]
    only, without range checks. *)
Definition sample_strptime_isoformat (s : string) : outcome string :=
  match list_ascii_of_string s with
  | [y1; y2; y3; y4; c1; m1; m2; c2; d1; d2; sp; h1; h2; c3; n1; n2; c4; s1; s2] =>
    if forallb is_digit [y1; y2; y3; y4; m1; m2; d1; d2; h1; h2; n1; n2; s1; s2]
       && bool_decide ([c1; c2; sp; c3; c4] = list_ascii_of_string ":: ::")
    then Returned (string_of_list_ascii
                     ([y1; y2; y3; y4] ++ list_ascii_of_string "-" ++ [m1; m2]
                      ++ list_ascii_of_string "-" ++ [d1; d2]
                      ++ list_ascii_of_string "T" ++ [h1; h2; c3; n1; n2; c4; s1; s2]))
    else Raised
  | _ => Raised
  end.

Definition sample_getexif (img : string) : outcome (option (list (N * pyval))) :=
  if bool_decide (img = "https://res/p1") then
    Returned (Some [(271%N, PStr "Canon");
                    (306%N, PStr "2025:01:01 00:00:00");
                    (36867%N, PStr "2024:12:25 14:30:45")])
  else if bool_decide (img = "https://res/p3") then Raised
  else if bool_decide (img = "https://res/r1") then
    Returned (Some [(306%N, PStr "not a date")])
  else Returned None.

(** [k] centroids and the pixels dealt to them in turn; as the library does,
    fitting fails with fewer samples than clusters. *)
Definition sample_KMeans_fit (k : nat) (pixels : list (Z * Z * Z))
  : outcome (list (Q * Q * Q) * list nat) :=
  if decide (1 ≤ k ≤ length pixels) then
    Returned ((λ j, (inject_Z (Z.of_nat (40 * j)), 128 # 1, 255 # 2)%Q) <$> seq 0 k,
              (λ i, (i * i) `mod` k) <$> seq 0 (length pixels))
  else Raised.

Definition sample_libraries_with
    (api : string → nat → option string → nat → outcome page * nat) : Libraries :=
  {| image := string;
     api_state := nat;
     resources_by_asset_folder := api;
     requests_get := λ url timeout,
       if bool_decide (url = "https://res/p2") then Raised
       else Returned {| status_code := 200; content := url |};
     Image_open := λ content, Returned content;
     image_mode := λ img, if bool_decide (img = "https://res/p3") then "P" else "RGB";
     image_convert := λ img mode, Returned img;
     image_getexif := sample_getexif;
     strptime_isoformat := sample_strptime_isoformat;
     mean_saturation := λ img,
       if bool_decide (img = "https://res/p1")
       then Returned (S754_finite false 8106479329266893 (-53))
       else Raised;
     clip_similarity := λ img prompts,
       Returned ((λ p, S754_finite false (Pos.of_nat (String.length p)) 0) <$> prompts);
     thumbnail_pixels := λ img,
       Returned (replicate 4 (255, 0, 0)%Z ++ replicate 3 (0, 0, 255)%Z);
     KMeans_fit := sample_KMeans_fit;
     true_divide := λ count total, (Z.of_nat count # Pos.of_nat total)%Q |}.

Definition sample_libraries : Libraries := sample_libraries_with sample_api.

(** A stored entry of an earlier run. *)
Definition sample_record (u : string) : tag_record :=
  {| tr_url := u;
     tr_folder := "portfolio";
     tr_created_at := PStr "2023-05-01T09:00:00";
     tr_content := ["mountain"];
     tr_style := ["cinematic"];
     tr_lighting := ["golden hour"];
     tr_colors := ["warm colors"];
     tr_color_palette := [{| r := 128; g := 128; b := 128; weight := 1 |}];
     tr_all_tags := ["mountain"; "cinematic"; "golden hour"; "warm colors"] |}.

Definition sample_prior : gmap string tag_record :=
  {[ "A" := sample_record "https://res/A"; "r1" := sample_record "https://res/old" ]}.

(** The pages [sample_api] answers. *)
Definition sample_portfolio_pages : list page :=
  [ {| page_resources := [sample_resource "p1"; sample_resource "p2"];
       page_next_cursor := Some "c1" |};
    {| page_resources := [sample_resource "p3"]; page_next_cursor := None |} ].

Definition sample_rugby_pages : list page :=
  [ {| page_resources := [sample_resource "r1"]; page_next_cursor := Some "c2" |} ].

Definition sample_image (id folder : string) : img_data :=
  to_img_data (sample_resource id, folder).

Definition sample_images : list img_data :=
  [sample_image "p1" "portfolio"; sample_image "p2" "portfolio";
   sample_image "p3" "portfolio"; sample_image "r1" "rugby"].

(** ** Vocabulary of the specification *)

(** A tag is achromatic when it equals one of the keywords up to letter case. *)
Definition achromatic (tag : string) : Prop :=
  ∃ kw, kw ∈ bw_keywords ∧ lower tag = lower kw.

(** [exif_data.get(tag_id)] on the items of the dictionary. *)
Definition exif_lookup (tag_id : N) (exif_data : list (N * pyval)) : option pyval :=
  snd <$> find (λ item : N * pyval, bool_decide (item.1 = tag_id)) exif_data.

(** The EXIF tag ids of the capture time and of the file modification time. *)
Definition DateTimeOriginal_id : N := 36867.
Definition DateTime_id : N := 306.

(** A date field in ISO-8601 when it parses, unmodified when it does not. *)
Definition iso_or_raw `{L : Libraries} (value : pyval) : pyval :=
  match value with
  | PStr s =>
    match strptime_isoformat s with
    | Returned iso => PStr iso
    | Raised => value
    end
  | PNum _ => value
  end.

(** The resources of a run of pages, each marked with the folder. *)
Definition tagged (folder : string) (pages : list page) : list (resource * string) :=
  pages ≫= λ p, (λ img, (img, folder)) <$> page_resources p.

(** The resources a sequence of folder listings gathers, folder by folder. *)
Definition gathered (folders : list string) (traces : list (list page * bool))
  : list (resource * string) :=
  mjoin (zip_with (λ folder (trace : list page * bool), tagged folder trace.1)
           folders traces).

(** [listing folder c st pages failed st']: asked for [folder] from cursor [c]
    in state [st], the backend answers [pages] one after the other, each but
    the last with a cursor to the next, and then either stops ([failed] is
    false: the last page carries no cursor) or fails the next request. *)
Inductive listing `{L : Libraries} (folder : string)
  : option string → api_state → list page → bool → api_state → Prop :=
| listing_failed c st st' :
    resources_by_asset_folder folder 500 c st = (Raised, st') →
    listing folder c st [] true st'
| listing_last c st p st' :
    resources_by_asset_folder folder 500 c st = (Returned p, st') →
    falsy (page_next_cursor p) = true →
    listing folder c st [p] false st'
| listing_next c st p st' pages failed st'' :
    resources_by_asset_folder folder 500 c st = (Returned p, st') →
    falsy (page_next_cursor p) = false →
    listing folder (page_next_cursor p) st' pages failed st'' →
    listing folder c st (p :: pages) failed st''.

(** The same for a sequence of folders, one after the other. *)
Inductive listings `{L : Libraries}
  : list string → api_state → list (list page * bool) → api_state → Prop :=
| listings_nil st : listings [] st [] st
| listings_cons folder folders st pages failed st' traces st'' :
    listing folder None st pages failed st' →
    listings folders st' traces st'' →
    listings (folder :: folders) st ((pages, failed) :: traces) st''.

(** The sum of the weights of a palette. *)
Definition total_weight (palette : list palette_entry) : Q :=
  foldr Qplus 0%Q (weight <$> palette).

(** Weights in non-increasing order: every entry weighs at least as much as
    every later one. *)
Definition by_weight (palette : list palette_entry) : Prop :=
  StronglySorted (λ e1 e2, (weight e2 <= weight e1)%Q) palette.

(** The exact quotient [count / total]. *)
Definition quotient (count total : nat) : Q :=
  (inject_Z (Z.of_nat count) / inject_Z (Z.of_nat total))%Q.

(** The unit roundoff of binary64. *)
Definition unit_roundoff : Q := 1 # (2 ^ 53).

(** Division of binary64 is correctly rounded: on a count out of a positive
    total the relative error is at most the unit roundoff, and rounding keeps
    the order of the quotients. *)
Definition division_rounds `{L : Libraries} : Prop :=
  (∀ count total, 0 < total → count ≤ total →
     (quotient count total * (1 - unit_roundoff) <= true_divide count total
      ∧ true_divide count total <= quotient count total * (1 + unit_roundoff))%Q)
  ∧ (∀ count1 count2 total, count1 ≤ count2 →
       (true_divide count1 total <= true_divide count2 total)%Q).

(** [KMeans.fit] labels every sample and refuses an empty sample. *)
Definition kmeans_labels_samples `{L : Libraries} : Prop :=
  ∀ k pixels colors labels,
    KMeans_fit k pixels = Returned (colors, labels) →
    length labels = length pixels ∧ pixels ≠ [].

(** ** Further library contracts and instances *)

(** [image.convert(mode)] gives an image of that mode. *)
Definition convert_gives_mode `{L : Libraries} : Prop :=
  ∀ img mode img', image_convert img mode = Returned img' → image_mode img' = mode.

(** [KMeans.fit] labels the samples with cluster numbers below [n_clusters]. *)
Definition kmeans_labels_in_range `{L : Libraries} : Prop :=
  ∀ k pixels colors labels,
    KMeans_fit k pixels = Returned (colors, labels) → Forall (λ label, label < k) labels.

(** A centroid whose components lie in the range of a colour byte. *)
Definition in_gamut (color : Q * Q * Q) : Prop :=
  (0 <= color.1.1 ∧ color.1.1 <= 255 ∧ 0 <= color.1.2 ∧ color.1.2 <= 255
   ∧ 0 <= color.2 ∧ color.2 <= 255)%Q.

(** A palette entry whose components are colour bytes. *)
Definition byte_entry (e : palette_entry) : Prop :=
  (0 ≤ r e ≤ 255 ∧ 0 ≤ g e ≤ 255 ∧ 0 ≤ b e ≤ 255)%Z.

(** A score that is not NaN. *)
Definition is_number (score : spec_float) : Prop := score ≠ S754_nan.

(** The assets whose download succeeds. *)
Definition downloads `{L : Libraries} (data : img_data) : Prop :=
  is_Some (download_image (url data)).

(** A backend that lists one asset, the one whose download fails. *)
Definition p2_only_api (folder : string) (max_results : nat)
    (next_cursor : option string) (requests : nat) : outcome page * nat :=
  (if bool_decide (folder = "portfolio") then
     Returned {| page_resources := [sample_resource "p2"]; page_next_cursor := Some "" |}
   else Raised, S requests).

Definition p2_only_libraries : Libraries := sample_libraries_with p2_only_api.

(** An instance whose images carry their mode: [p3] opens as a palette
    image, and conversion changes the mode. *)
Definition moded_libraries : Libraries :=
  {| image := string * string;
     api_state := nat;
     resources_by_asset_folder := sample_api;
     requests_get := λ url timeout,
       if bool_decide (url = "https://res/p2")
       then Returned {| status_code := 404; content := url |}
       else Returned {| status_code := 200; content := url |};
     Image_open := λ content,
       Returned (content, if bool_decide (content = "https://res/p3") then "P" else "RGB");
     image_mode := snd;
     image_convert := λ img mode, Returned (img.1, mode);
     image_getexif := λ img, sample_getexif img.1;
     strptime_isoformat := sample_strptime_isoformat;
     mean_saturation := λ img, Raised;
     clip_similarity := λ img prompts,
       Returned ((λ p, S754_finite false (Pos.of_nat (String.length p)) 0) <$> prompts);
     thumbnail_pixels := λ img,
       Returned (replicate 4 (255, 0, 0)%Z ++ replicate 3 (0, 0, 255)%Z);
     KMeans_fit := sample_KMeans_fit;
     true_divide := λ count total, (Z.of_nat count # Pos.of_nat total)%Q |}.

(** * Properties *)

(** ** Outcomes and [mapM] *)

Lemma mapM_Returned {A B : Type} (f : A → outcome B) (l : list A) (k : list B) :
  mapM f l = Returned k ↔ Forall2 (λ x y, f x = Returned y) l k.
Proof.
  revert k. induction l as [|x l IH]; intros k; simpl.
  - split; [intros [= <-]; constructor | by inversion 1].
  - unfold mbind, outcome_bind. destruct (f x) as [y|] eqn:Hfx.
    + fold (mapM f l). destruct (mapM f l) as [k'|] eqn:Hl; simpl.
      * unfold mret, outcome_ret. split.
        -- intros [= <-]. constructor; [done|]. by apply IH.
        -- inversion 1 as [|? y' ? k'' Hy Hk]; subst.
           apply IH in Hk. congruence.
      * split; [done|]. inversion 1 as [|? y' ? k'' Hy Hk]; subst.
        apply IH in Hk. done.
    + split; [done|]. inversion 1; congruence.
Qed.

Lemma mapM_getitem_Returned {A : Type} (l : list A) (indices : list nat) (k : list A) :
  mapM (getitem l) indices = Returned k ↔ Forall2 (λ i x, l !! i = Some x) indices k.
Proof.
  rewrite mapM_Returned.
  split; intros H; eapply Forall2_impl; try exact H;
    intros i x; unfold getitem; destruct (l !! i); naive_solver.
Qed.

Lemma mapM_getitem_in_range {A : Type} (l : list A) (indices : list nat) :
  Forall (λ i, i < length l) indices → ∃ k, mapM (getitem l) indices = Returned k.
Proof.
  induction 1 as [|i indices Hi _ [k IH]].
  - by exists [].
  - destruct (lookup_lt_is_Some_2 l i Hi) as [x Hx].
    exists (x :: k). apply mapM_getitem_Returned. constructor; [done|].
    by apply mapM_getitem_Returned.
Qed.

(** ** The grayscale tag filter *)

Lemma lower_bw_keywords kw : kw ∈ bw_keywords → lower kw = kw.
Proof.
  unfold bw_keywords. rewrite !elem_of_cons, elem_of_nil.
  intros [->|[->|[->|[->|[->|[]]]]]]; reflexivity.
Qed.

Lemma achromatic_iff tag : achromatic tag ↔ lower tag ∈ bw_keywords.
Proof.
  split.
  - intros (kw & Hkw & Heq). rewrite Heq, lower_bw_keywords; done.
  - intros H. exists (lower tag). split; [done|].
    symmetry. by apply lower_bw_keywords.
Qed.

#[local] Instance achromatic_dec tag : Decision (achromatic tag).
Proof.
  refine (cast_if (decide (lower tag ∈ bw_keywords)));
    abstract (by rewrite achromatic_iff).
Defined.

Lemma filter_achromatic (tags : list string) :
  filter (λ tag, lower tag ∉ bw_keywords) tags
  = filter (λ tag, ¬ achromatic tag) tags.
Proof.
  apply list_filter_iff. intros tag. by rewrite achromatic_iff.
Qed.

(** The IEEE comparison of two floats, read in the other direction. *)
Lemma SFcompare_antisym x y :
  SFcompare y x = CompOpp <$> SFcompare x y.
Proof.
  destruct x as [[]| []| |[] mx ex], y as [[]| []| |[] my ey]; simpl; try done.
  all: rewrite (Z.compare_antisym ey ex).
  all: destruct (ey ?= ex)%Z; simpl; try done.
  all: by rewrite (Pos.compare_cont_antisym mx my Eq).
Qed.

Lemma SFleb_not_SFltb x y : SFleb x y = true → SFltb y x = false.
Proof.
  unfold SFleb, SFltb. rewrite (SFcompare_antisym x y).
  destruct (SFcompare x y) as [[]|]; simpl; congruence.
Qed.

(** C4: at or below the threshold the tags come back unchanged; above it
    exactly the achromatic tags are removed (order and multiplicity of the
    others kept), unless nothing would remain, in which case the original
    list is returned. *)
Theorem filter_bw_tags_spec (color_tags : list string) (saturation : spec_float) :
  let kept := filter (λ tag, ¬ achromatic tag) color_tags in
  (SFleb saturation SATURATION_THRESHOLD = true →
     filter_bw_tags color_tags saturation = color_tags)
  ∧ (SFltb SATURATION_THRESHOLD saturation = true → kept ≠ [] →
     filter_bw_tags color_tags saturation = kept
     ∧ ∀ tag, tag ∈ filter_bw_tags color_tags saturation
              ↔ tag ∈ color_tags ∧ ¬ achromatic tag)
  ∧ (SFltb SATURATION_THRESHOLD saturation = true → kept = [] →
     filter_bw_tags color_tags saturation = color_tags).
Proof.
  intros kept. unfold filter_bw_tags. rewrite filter_achromatic. fold kept.
  split; [|split].
  - intros Hle. by rewrite (SFleb_not_SFltb _ _ Hle).
  - intros -> Hne. destruct kept as [|t kept'] eqn:Hk; [done|].
    split; [done|]. intros tag. rewrite <- Hk. unfold kept.
    by rewrite list_elem_of_filter, (comm and).
  - intros -> ->. done.
Qed.

(** ** The timestamp resolver *)

Section Timestamp.
Context `{L : Libraries}.

Lemma tag_name_is_DateTimeOriginal tag_id :
  tag_name_is (TAGS_get tag_id) "DateTimeOriginal"
  = bool_decide (tag_id = DateTimeOriginal_id).
Proof.
  unfold TAGS_get, TAGS, DateTimeOriginal_id. simpl.
  repeat (case_bool_decide; subst; simpl; [by repeat case_bool_decide|]).
  by repeat case_bool_decide.
Qed.

Lemma tag_name_is_DateTime tag_id :
  tag_name_is (TAGS_get tag_id) "DateTime" = bool_decide (tag_id = DateTime_id).
Proof.
  unfold TAGS_get, TAGS, DateTime_id. simpl.
  repeat (case_bool_decide; subst; simpl; [by repeat case_bool_decide|]).
  by repeat case_bool_decide.
Qed.

Lemma find_tag_DateTimeOriginal exif_data :
  find_tag "DateTimeOriginal" exif_data = exif_lookup DateTimeOriginal_id exif_data.
Proof.
  unfold find_tag, exif_lookup. f_equal.
  induction exif_data as [|item exif_data IH]; [done|]. simpl.
  by rewrite tag_name_is_DateTimeOriginal, IH.
Qed.

Lemma find_tag_DateTime exif_data :
  find_tag "DateTime" exif_data = exif_lookup DateTime_id exif_data.
Proof.
  unfold find_tag, exif_lookup. f_equal.
  induction exif_data as [|item exif_data IH]; [done|]. simpl.
  by rewrite tag_name_is_DateTime, IH.
Qed.

Lemma parse_or_raw_spec value : parse_or_raw value = iso_or_raw value.
Proof.
  unfold parse_or_raw, iso_or_raw. destruct value as [s|n]; [|done].
  simpl. unfold mbind, outcome_bind. by destruct (strptime_isoformat s).
Qed.

(** C6: the capture-time field wins, parsed or else raw; without it the
    file-modification field, parsed or else raw; without usable metadata
    (no EXIF dictionary, neither field, or an exception while reading it)
    [get_photo_date] gives [None] and the loop takes the upload date of the
    listing.  [get_photo_date] is total: no case raises. *)
Theorem photo_date_priority (img : image) (data : img_data) :
  (∀ exif_data value,
     image_getexif img = Returned (Some exif_data) →
     exif_lookup DateTimeOriginal_id exif_data = Some value →
     get_photo_date img = Some (iso_or_raw value)
     ∧ photo_date_of img data = iso_or_raw value)
  ∧ (∀ exif_data value,
     image_getexif img = Returned (Some exif_data) →
     exif_lookup DateTimeOriginal_id exif_data = None →
     exif_lookup DateTime_id exif_data = Some value →
     get_photo_date img = Some (iso_or_raw value)
     ∧ photo_date_of img data = iso_or_raw value)
  ∧ ((image_getexif img = Raised
      ∨ image_getexif img = Returned None
      ∨ ∃ exif_data, image_getexif img = Returned (Some exif_data)
          ∧ exif_lookup DateTimeOriginal_id exif_data = None
          ∧ exif_lookup DateTime_id exif_data = None) →
     get_photo_date img = None
     ∧ photo_date_of img data = PStr (created_at data)).
Proof.
  unfold photo_date_of, get_photo_date.
  split; [|split].
  - intros exif_data value -> Hdto. simpl.
    rewrite find_tag_DateTimeOriginal, Hdto. simpl.
    by rewrite parse_or_raw_spec.
  - intros exif_data value -> Hdto Hdt. simpl.
    rewrite find_tag_DateTimeOriginal, Hdto, find_tag_DateTime, Hdt. simpl.
    by rewrite parse_or_raw_spec.
  - intros [-> | [-> | (exif_data & -> & Hdto & Hdt)]]; simpl; try done.
    by rewrite find_tag_DateTimeOriginal, Hdto, find_tag_DateTime, Hdt.
Qed.

End Timestamp.

(** ** The CLIP tagger *)

Lemma imap_pair_fst {A : Type} (l : list A) : (imap pair l).*1 = seq 0 (length l).
Proof.
  rewrite fmap_imap, <- (list_fmap_id (seq 0 (length l))).
  by rewrite <- (imap_seq_0 l id).
Qed.

(** [topk] selects [k] pairwise distinct positions of the score vector. *)
Lemma topk_Returned k similarity indices :
  topk k similarity = Returned indices →
  length indices = k
  ∧ NoDup indices
  ∧ Forall (λ i, i < length similarity) indices.
Proof.
  unfold topk. case_decide as Hk; [|done]. intros [= <-].
  set (sorted := merge_sort score_ge (imap pair similarity)).
  assert (Hperm : sorted.*1 ≡ₚ seq 0 (length similarity)).
  { unfold sorted. by rewrite merge_sort_Permutation, imap_pair_fst. }
  split; [|split].
  - rewrite length_take, (Permutation_length Hperm), length_seq. lia.
  - eapply sublist_NoDup; [|apply sublist_take].
    rewrite Hperm. apply NoDup_seq.
  - apply Forall_take. rewrite Hperm. apply Forall_seq. lia.
Qed.

Lemma topk_in_range k similarity :
  k ≤ length similarity → ∃ indices, topk k similarity = Returned indices.
Proof. intros Hk. unfold topk. rewrite decide_True by done. eauto. Qed.

Lemma lookup_distinct_NoDup {A : Type} (l k : list A) (indices : list nat) :
  NoDup l → NoDup indices → Forall2 (λ i x, l !! i = Some x) indices k → NoDup k.
Proof.
  intros Hl Hi HF. induction HF as [|i x indices k Hx HF IH]; [constructor|].
  apply NoDup_cons in Hi as [Hi Hind]. apply NoDup_cons. split; [|by apply IH].
  intros Hin. apply Hi.
  apply list_elem_of_lookup in Hin as [n Hn].
  destruct (Forall2_lookup_r _ _ _ _ _ HF Hn) as (j & Hj & Hlj).
  assert (i = j) as -> by exact (NoDup_lookup l i j x Hl Hx Hlj).
  by eapply list_elem_of_lookup_2.
Qed.

Lemma builtin_labels_NoDup :
  Forall NoDup [CONTENT_LABELS; STYLE_LABELS; LIGHTING_LABELS; COLOR_LABELS].
Proof.
  repeat (apply Forall_cons_2; [apply (bool_decide_unpack _); by vm_compute|]).
  apply Forall_nil_2.
Qed.

Section Tagger.
Context `{L : Libraries}.

(** When the body of the [try] returns, it returns the labels at [top_k]
    distinct positions of the label list. *)
Lemma get_clip_tags_try_Returned img labels top_k tags :
  get_clip_tags_try img labels top_k = Returned tags →
  ∃ indices, length indices = top_k ∧ NoDup indices
             ∧ Forall2 (λ i t, labels !! i = Some t) indices tags.
Proof.
  unfold get_clip_tags_try, mbind, outcome_bind.
  destruct (clip_similarity _ _) as [similarity|]; [|done].
  destruct (topk top_k similarity) as [indices|] eqn:Htopk; [|done].
  intros Hmap%mapM_getitem_Returned.
  apply topk_Returned in Htopk as (Hlen & Hnodup & _). eauto.
Qed.

(** The tags of every call: either none, or those of the [try]. *)
Lemma get_clip_tags_cases img labels top_k :
  get_clip_tags img labels top_k = []
  ∨ get_clip_tags_try img labels top_k = Returned (get_clip_tags img labels top_k).
Proof.
  unfold get_clip_tags. destruct (get_clip_tags_try img labels top_k); simpl; auto.
Qed.

(** For any label list: at most [top_k] tags, each from the label list,
    taken at pairwise distinct positions of it; hence without repetition
    whenever the label list has none, as is the case for the four label
    sets of the script. *)
Theorem get_clip_tags_bounds (img : image) (labels : list string) (top_k : nat) :
  let tags := get_clip_tags img labels top_k in
  length tags ≤ top_k
  ∧ (∀ t, t ∈ tags → t ∈ labels)
  ∧ (∃ indices, NoDup indices ∧ Forall2 (λ i t, labels !! i = Some t) indices tags)
  ∧ (NoDup labels → NoDup tags)
  ∧ Forall NoDup [CONTENT_LABELS; STYLE_LABELS; LIGHTING_LABELS; COLOR_LABELS].
Proof.
  intros tags. unfold tags.
  destruct (get_clip_tags_cases img labels top_k) as [-> | Htry].
  - repeat split; simpl; try lia.
    + by intros t ?%elem_of_nil.
    + exists []. split; constructor.
    + intros _. constructor.
    + apply builtin_labels_NoDup.
  - apply get_clip_tags_try_Returned in Htry as (indices & Hlen & Hnodup & HF).
    repeat split.
    + rewrite <- (Forall2_length _ _ _ HF). lia.
    + intros t [n Hn]%list_elem_of_lookup.
      destruct (Forall2_lookup_r _ _ _ _ _ HF Hn) as (j & _ & Hlj).
      by eapply list_elem_of_lookup_2.
    + eauto.
    + intros Hl. by eapply lookup_distinct_NoDup.
    + apply builtin_labels_NoDup.
Qed.

Lemma taxonomies_NoDup taxonomy : taxonomy ∈ taxonomies → NoDup (tx_labels taxonomy).
Proof.
  pose proof builtin_labels_NoDup as Hb.
  apply Forall_cons in Hb as [Hc Hb]. apply Forall_cons in Hb as [Hs Hb].
  apply Forall_cons in Hb as [Hl Hb]. apply Forall_cons in Hb as [Ho _].
  unfold taxonomies. rewrite !elem_of_cons, elem_of_nil.
  intros [->|[->|[->|[->|[]]]]]; done.
Qed.

(** C3: for every image and every taxonomy of the script, the classifier
    returns at most [top_k] labels, each of them a label of the taxonomy,
    and none of them twice. *)
Theorem classify_within_taxonomy (img : image) (taxonomy : LabelTaxonomy) :
  taxonomy ∈ taxonomies →
  let tags := get_clip_tags img (tx_labels taxonomy) (tx_top_k taxonomy) in
  length tags ≤ tx_top_k taxonomy
  ∧ (∀ t, t ∈ tags → t ∈ tx_labels taxonomy)
  ∧ NoDup tags.
Proof.
  intros Hin tags.
  destruct (get_clip_tags_bounds img (tx_labels taxonomy) (tx_top_k taxonomy))
    as (Hlen & Hsub & _ & Hnodup & _).
  split; [done|]. split; [done|]. by apply Hnodup, taxonomies_NoDup.
Qed.

(** C10: when the [try] of [get_clip_tags] completes and the label list has
    at least [top_k] entries, the result has exactly [top_k] labels, read at
    pairwise distinct positions of the label list; and the [try] does
    complete once the model has produced one score per label. *)
Theorem get_clip_tags_exactly_top_k (img : image) (labels : list string) (top_k : nat) :
  top_k ≤ length labels →
  (∀ tags, get_clip_tags_try img labels top_k = Returned tags →
     get_clip_tags img labels top_k = tags
     ∧ length tags = top_k
     ∧ ∃ indices, length indices = top_k ∧ NoDup indices
                  ∧ Forall2 (λ i t, labels !! i = Some t) indices tags)
  ∧ (∀ similarity,
       clip_similarity img ((λ label, "a photo of " +:+ label) <$> labels)
       = Returned similarity →
       length similarity = length labels →
       ∃ tags, get_clip_tags_try img labels top_k = Returned tags).
Proof.
  intros Hk. split.
  - intros tags Htry. unfold get_clip_tags. rewrite Htry. split; [done|].
    apply get_clip_tags_try_Returned in Htry as (indices & Hlen & Hnodup & HF).
    split; [|eauto]. by rewrite <- (Forall2_length _ _ _ HF).
  - intros similarity Hsim Hshape.
    unfold get_clip_tags_try, mbind, outcome_bind. rewrite Hsim.
    destruct (topk_in_range top_k similarity) as [indices Htopk]; [lia|].
    rewrite Htopk. apply mapM_getitem_in_range.
    apply topk_Returned in Htopk as (_ & _ & Hrange). by rewrite <- Hshape.
Qed.

End Tagger.

(** ** The colour palette *)

(** *** Counting labels *)

Lemma sum_list_indicator (x s n : nat) :
  sum_list ((λ j, if decide (x = j) then 1 else 0) <$> seq s n)
  = if decide (s ≤ x < s + n) then 1 else 0.
Proof.
  revert s. induction n as [|n IH]; intros s; csimpl.
  - case_decide; [lia|done].
  - rewrite IH. repeat case_decide; lia.
Qed.

Lemma sum_list_fmap_add {A : Type} (f g : A → nat) (l : list A) :
  sum_list ((λ j, f j + g j) <$> l) = sum_list (f <$> l) + sum_list (g <$> l).
Proof. induction l as [|a l IH]; csimpl; [done|]. rewrite IH. lia. Qed.

Lemma count_sum (n : nat) (labels : list nat) :
  Forall (λ x, x < n) labels →
  sum_list ((λ j, length (filter (λ x, x = j) labels)) <$> seq 0 n) = length labels.
Proof.
  induction 1 as [|x labels Hx _ IH]; csimpl.
  - induction (seq 0 n) as [|j js IHjs]; csimpl; [done|]. by rewrite IHjs.
  - rewrite <- IH.
    rewrite (list_fmap_ext _
      (λ j, (if decide (x = j) then 1 else 0) + length (filter (λ y, y = j) labels))).
    + rewrite sum_list_fmap_add, sum_list_indicator.
      rewrite decide_True by lia. done.
    + intros _ j _. rewrite filter_cons. by case_decide.
Qed.

Lemma bincount_sum (labels : list nat) : sum_list (bincount labels) = length labels.
Proof.
  destruct labels as [|x l]; [done|]. unfold bincount.
  apply count_sum. apply Forall_forall. intros y Hy.
  apply max_list_elem_of_le in Hy. lia.
Qed.

Lemma bincount_le (labels : list nat) :
  Forall (λ count, count ≤ length labels) (bincount labels).
Proof.
  destruct labels as [|x l]; [constructor|]. unfold bincount.
  apply Forall_fmap, Forall_forall. intros j _. apply length_filter.
Qed.

(** *** Sorting positions by count *)

#[local] Instance count_ge_trans : Transitive count_ge.
Proof. intros x y z. unfold count_ge. lia. Qed.

#[local] Instance count_ge_total : Total count_ge.
Proof. intros x y. unfold count_ge. lia. Qed.

Lemma imap_pair_snd {A : Type} (l : list A) : (imap pair l).*2 = l.
Proof.
  rewrite fmap_imap. rewrite <- (list_fmap_id l) at 2.
  by rewrite <- imap_const.
Qed.

Lemma imap_pair_lookup {A : Type} (l : list A) :
  Forall (λ x : nat * A, l !! x.1 = Some x.2) (imap pair l).
Proof.
  apply Forall_forall. intros [i a] [j Hj]%list_elem_of_lookup.
  rewrite list_lookup_imap in Hj. destruct (l !! j) as [a'|] eqn:Ha; [|done].
  simpl in Hj. injection Hj as <- <-. done.
Qed.

(** *** Sums of weights *)

Lemma Qsum_Permutation (l l' : list Q) :
  l ≡ₚ l' → (foldr Qplus 0 l == foldr Qplus 0 l')%Q.
Proof. induction 1; simpl; lra. Qed.

Lemma inject_nat_nonzero (n : nat) : 0 < n → ¬ (inject_Z (Z.of_nat n) == 0)%Q.
Proof. intros Hn. unfold Qeq. simpl. lia. Qed.

Lemma quotient_add (c1 c2 total : nat) :
  0 < total →
  (quotient (c1 + c2) total == quotient c1 total + quotient c2 total)%Q.
Proof.
  intros Ht. unfold quotient. rewrite Nat2Z.inj_add, inject_Z_plus.
  field. by apply inject_nat_nonzero.
Qed.

Lemma quotient_same (total : nat) : 0 < total → (quotient total total == 1)%Q.
Proof. intros Ht. unfold quotient. field. by apply inject_nat_nonzero. Qed.

Lemma Qsum_quotient (total : nat) (counts : list nat) :
  0 < total →
  (foldr Qplus 0 ((λ c, quotient c total) <$> counts)
   == quotient (sum_list counts) total)%Q.
Proof.
  intros Ht. induction counts as [|c counts IH]; csimpl.
  - unfold quotient. simpl. field. by apply inject_nat_nonzero.
  - rewrite IH. symmetry. by apply quotient_add.
Qed.

Section Palette.
Context `{L : Libraries}.

(** The rounded quotients of a list of counts stay within the unit roundoff
    of the exact ones, summed. *)
Lemma Qsum_true_divide (total : nat) (counts : list nat) :
  division_rounds → 0 < total → Forall (λ c, c ≤ total) counts →
  (foldr Qplus 0 ((λ c, quotient c total) <$> counts) * (1 - unit_roundoff)
   <= foldr Qplus 0 ((λ c, true_divide c total) <$> counts)
   ∧ foldr Qplus 0 ((λ c, true_divide c total) <$> counts)
     <= foldr Qplus 0 ((λ c, quotient c total) <$> counts) * (1 + unit_roundoff))%Q.
Proof.
  intros [Hround _] Ht. induction 1 as [|c counts Hc _ [IHl IHu]]; csimpl.
  - split; lra.
  - destruct (Hround c total Ht Hc) as [Hl Hu]. split; lra.
Qed.

Lemma palette_entry_at_Returned colors counts total i e :
  palette_entry_at colors counts total i = Returned e →
  ∃ count, counts !! i = Some count ∧ weight e = true_divide count total.
Proof.
  unfold palette_entry_at, getitem, mbind, outcome_bind.
  destruct (colors !! i); [|done]. destruct (counts !! i) as [count|]; [|done].
  intros [= <-]. eauto.
Qed.

(** The weights of a palette built from the sorted positions. *)
Lemma palette_weights_sorted colors counts total palette :
  mapM (palette_entry_at colors counts total) (argsort_desc counts) = Returned palette →
  weight <$> palette
  = (λ c, true_divide c total) <$> (merge_sort count_ge (imap pair counts)).*2.
Proof.
  unfold argsort_desc. intros HF%mapM_Returned.
  assert (Hin : Forall (λ x : nat * nat, counts !! x.1 = Some x.2)
                  (merge_sort count_ge (imap pair counts))).
  { rewrite merge_sort_Permutation. apply imap_pair_lookup. }
  revert palette HF Hin.
  induction (merge_sort count_ge (imap pair counts)) as [|x sorted IH];
    intros palette HF Hin; csimpl in *.
  - by inversion HF.
  - inversion HF as [|? e ? palette' He HF']; subst.
    apply Forall_cons in Hin as [Hx Hin]. csimpl.
    apply palette_entry_at_Returned in He as (count & Hcount & ->).
    rewrite Hx in Hcount. injection Hcount as <-.
    f_equal. by apply IH.
Qed.

Lemma StronglySorted_fmap_inv {A B : Type} (f : A → B) (R : relation B) (l : list A) :
  StronglySorted R (f <$> l) → StronglySorted (λ x y, R (f x) (f y)) l.
Proof.
  induction l as [|a l IH]; csimpl; [constructor|].
  intros [Hs Hall]%StronglySorted_inv. constructor; [by apply IH|].
  rewrite Forall_fmap in Hall. exact Hall.
Qed.

(** C5: the weights of every palette [get_color_palette] returns, the gray
    default included, sum to 1 within 1e-6 and are in non-increasing order,
    under the contracts of binary64 division and of [KMeans.fit]. *)
Theorem palette_weights (img : image) (num_colors : nat) :
  division_rounds → kmeans_labels_samples →
  let palette := get_color_palette img num_colors in
  (Qabs (total_weight palette - 1) <= 1 # 1000000)%Q ∧ by_weight palette.
Proof.
  intros Hdiv Hkm palette. unfold palette, get_color_palette, mbind, outcome_bind.
  assert (Hdefault :
    let d := [{| r := 128; g := 128; b := 128; weight := 1 |}] in
    (Qabs (total_weight d - 1) <= 1 # 1000000)%Q ∧ by_weight d).
  { split; [by vm_compute|]. repeat constructor. }
  destruct (thumbnail_pixels img) as [pixels|]; [|exact Hdefault].
  destruct (KMeans_fit num_colors pixels) as [[colors labels]|] eqn:Hfit;
    [|exact Hdefault].
  destruct (mapM _ _) as [entries|] eqn:Hmap; [|exact Hdefault].
  cbn [try_except]. clear Hdefault.
  apply palette_weights_sorted in Hmap.
  destruct (Hkm _ _ _ _ Hfit) as [Hlen Hne].
  assert (Htotal : 0 < length labels).
  { rewrite Hlen. destruct pixels; [done|simpl; lia]. }
  set (total := length labels) in *.
  set (sorted := merge_sort count_ge (imap pair (bincount labels))) in *.
  assert (Hperm : sorted.*2 ≡ₚ bincount labels).
  { unfold sorted. by rewrite merge_sort_Permutation, imap_pair_snd. }
  split.
  - unfold total_weight. rewrite Hmap.
    pose proof (Qsum_Permutation
      ((λ c, true_divide c total) <$> sorted.*2)
      ((λ c, true_divide c total) <$> bincount labels)
      (fmap_Permutation _ _ _ Hperm)) as Hp.
    destruct (Qsum_true_divide total (bincount labels) Hdiv Htotal (bincount_le labels))
      as [Hl Hu].
    pose proof (Qsum_quotient total (bincount labels) Htotal) as Hq.
    rewrite bincount_sum in Hq. fold total in Hq.
    pose proof (quotient_same total Htotal) as Hs.
    unfold unit_roundoff in Hl, Hu.
    change (2 ^ 53)%positive with 9007199254740992%positive in Hl, Hu.
    apply (proj2 (Qabs_Qle_condition _ _)). split; lra.
  - unfold by_weight. apply StronglySorted_fmap_inv with (R := λ w1 w2, (w2 <= w1)%Q).
    rewrite Hmap, <- list_fmap_compose.
    apply (StronglySorted_fmap _ count_ge).
    + intros x y Hxy. simpl. by apply (proj2 Hdiv).
    + by apply (StronglySorted_merge_sort _).
Qed.

End Palette.

(** ** Listing *)

Section Listing.
Context `{L : Libraries}.

Lemma tagged_cons folder p pages :
  tagged folder (p :: pages)
  = ((λ img, (img, folder)) <$> page_resources p) ++ tagged folder pages.
Proof. done. Qed.

(** The loop of one folder follows the answers of the backend: with fuel for
    one request more than there are pages, it returns what it held plus the
    resources of these pages, whether the listing ended or failed. *)
Lemma fetch_pages_listing folder cursor st pages failed st' :
  listing folder cursor st pages failed st' →
  ∀ fuel all_images, length pages < fuel →
    fetch_pages fuel folder cursor all_images st
    = Some (all_images ++ tagged folder pages, st').
Proof.
  induction 1 as [c st st' Hreq | c st p st' Hreq Hlast
                 | c st p st' pages failed st'' Hreq Hmore _ IH];
    intros [|fuel] all_images Hfuel; simpl in Hfuel; try lia;
    cbn [fetch_pages]; rewrite Hreq.
  - unfold tagged. simpl. by rewrite app_nil_r.
  - rewrite Hlast. by rewrite tagged_cons, app_nil_r.
  - rewrite Hmore, IH by lia. by rewrite tagged_cons, app_assoc.
Qed.

Lemma fetch_folders_listings folders st traces st' :
  listings folders st traces st' →
  ∀ fuel all_images, Forall (λ trace, length trace.1 < fuel) traces →
    fetch_folders fuel folders all_images st
    = Some (all_images ++ gathered folders traces, st').
Proof.
  induction 1 as [st | folder folders st pages failed st' traces st'' Hone _ IH];
    intros fuel all_images Hfuel; cbn [fetch_folders].
  - unfold gathered. simpl. by rewrite app_nil_r.
  - apply Forall_cons in Hfuel as [Hfuel1 Hfuel].
    rewrite (fetch_pages_listing _ _ _ _ _ _ Hone) by done.
    rewrite IH by done. unfold gathered. simpl. by rewrite app_assoc.
Qed.

(** C7: a failed request ends the pagination of its folder only.  Whatever
    folders fail, and wherever, the result holds for each folder the
    resources of the pages answered before its failure, or of all its pages
    when there is none; in particular [fetch_all_images] returns all of
    [portfolio] when [rugby] fails after it. *)
Theorem listing_failure_is_folder_local
    (folders : list string) (st st' : api_state)
    (traces : list (list page * bool)) (fuel : nat) :
  listings folders st traces st' →
  Forall (λ trace, length trace.1 < fuel) traces →
  fetch_folders fuel folders [] st = Some (gathered folders traces, st')
  ∧ (∀ portfolio rugby_failed,
       folders = ["portfolio"; "rugby"] →
       traces = [(portfolio, false); (rugby_failed, true)] →
       fetch_all_images fuel st
       = Some ((to_img_data <$> tagged "portfolio" portfolio)
               ++ (to_img_data <$> tagged "rugby" rugby_failed), st')).
Proof.
  intros Hl Hfuel.
  pose proof (fetch_folders_listings _ _ _ _ Hl fuel [] Hfuel) as Hfetch.
  simpl in Hfetch. split; [done|].
  intros portfolio rugby_failed -> ->. unfold fetch_all_images.
  rewrite Hfetch. unfold gathered. simpl.
  by rewrite app_nil_r, fmap_app.
Qed.

End Listing.

(** ** The per-image loop *)

Section Loop.
Context `{L : Libraries}.

Lemma process_one_skipped data :
  download_image (url data) = None → process_one data = Returned None.
Proof. intros H. unfold process_one. by rewrite H. Qed.

Lemma process_one_stored data :
  is_Some (download_image (url data)) → ∃ rec, process_one data = Returned (Some rec).
Proof. intros [img H]. unfold process_one. rewrite H. eauto. Qed.

(** No turn of the loop lets an exception through: the body always returns. *)
Lemma process_one_Returned data : ∃ o, process_one data = Returned o.
Proof.
  destruct (download_image (url data)) eqn:H.
  - destruct (process_one_stored data) as [rec ->]; eauto.
  - rewrite process_one_skipped; eauto.
Qed.

Lemma process_step_skipped results data :
  download_image (url data) = None → process_step results data = results.
Proof. intros H. unfold process_step. by rewrite process_one_skipped. Qed.

Lemma process_loop_dom images (results : gmap string tag_record) :
  Forall (λ data, is_Some (download_image (url data))) images →
  dom (foldl process_step results images)
  = dom results ∪ list_to_set (public_id <$> images).
Proof.
  intros Hall. revert results.
  induction Hall as [|data images Hdata _ IH]; intros results; csimpl.
  - by rewrite (right_id_L ∅ (∪)).
  - rewrite IH. unfold process_step.
    destruct (process_one_stored data Hdata) as [rec ->].
    rewrite dom_insert_L, (comm_L (∪) {[public_id data]} (dom results)).
    by rewrite (assoc_L (∪)).
Qed.

(** C8: one asset whose download (request, status, decoding or conversion)
    fails, among assets with distinct ids that all download, is skipped and
    nothing else: the results are those of the list without it, one entry
    for each other asset and none for the failed one. *)
Theorem failed_download_skips_one (pre post : list img_data) (bad : img_data) :
  NoDup (public_id <$> pre ++ bad :: post) →
  download_image (url bad) = None →
  Forall (λ data, is_Some (download_image (url data))) (pre ++ post) →
  let results := process_images_only (pre ++ bad :: post) in
  size results = length (pre ++ bad :: post) - 1
  ∧ results = process_images_only (pre ++ post)
  ∧ results !! public_id bad = None
  ∧ (∀ data, data ∈ pre ++ post → is_Some (results !! public_id data))
  ∧ ∀ data, data ∈ pre ++ bad :: post → ∃ o, process_one data = Returned o.
Proof.
  intros Hnodup Hbad Hok results.
  assert (Hskip : results = process_images_only (pre ++ post)).
  { unfold results, process_images_only. rewrite !foldl_app. simpl.
    by rewrite process_step_skipped. }
  assert (Hdom : dom results = list_to_set (public_id <$> pre ++ post)).
  { rewrite Hskip. unfold process_images_only.
    rewrite process_loop_dom by done.
    by rewrite dom_empty_L, (left_id_L ∅ (∪)). }
  rewrite fmap_app, fmap_cons in Hnodup.
  apply NoDup_app in Hnodup as (Hpre & Hdisj & [Hnotin Hpost]%NoDup_cons).
  assert (Hnodup' : NoDup (public_id <$> pre ++ post)).
  { rewrite fmap_app. apply NoDup_app. repeat split; [done| |done].
    intros x Hx Hx'. apply (Hdisj x Hx). by right. }
  repeat split.
  - rewrite <- size_dom, Hdom, size_list_to_set by done.
    rewrite length_fmap, !length_app. simpl. lia.
  - done.
  - apply not_elem_of_dom. rewrite Hdom, elem_of_list_to_set, fmap_app, elem_of_app.
    intros [Hin | Hin]; [|done]. apply (Hdisj _ Hin). by left.
  - intros data Hdata. apply elem_of_dom. rewrite Hdom, elem_of_list_to_set.
    by apply list_elem_of_fmap_2.
  - intros data _. apply process_one_Returned.
Qed.

End Loop.

(** ** Persistence *)

Section Persistence.
Context `{L : Libraries}.

Lemma lower_folder_arg (arg : string) :
  lower arg ∈ ["portfolio"; "rugby"] →
  bool_decide (lower arg ∈ ["portfolio"; "rugby"]) = true.
Proof. intros H. by apply bool_decide_eq_true. Qed.




(** C2 as the code has it: without a store file the existing tags are the
    empty mapping and loading does not raise, so the run goes on to list
    the folder; a store file that does not parse makes [json.load] raise,
    nothing catches it, and the run ends there with the file as it was. *)
Theorem load_existing_tags_cases (prog arg : string) (fuel : nat) (st : api_state) :
  load_existing_tags Missing = Returned (JObject ∅)
  ∧ load_existing_tags Unparsable = Raised
  ∧ (lower arg ∈ ["portfolio"; "rugby"] →
     main [prog; arg] fuel st Unparsable
     = Some {| how := Uncaught; tags_json := Unparsable; api_after := st |})
  ∧ (lower arg ∈ ["portfolio"; "rugby"] →
     ∀ images st',
       fetch_images_from_folder fuel (lower arg) st = Some (images, st') →
       images ≠ [] →
       main [prog; arg] fuel st Missing
       = Some {| how := Completed;
                 tags_json := Parsed (JObject (process_images_only images));
                 api_after := st' |}).
Proof.
  split; [done|]. split; [done|]. split.
  - intros Harg. unfold main. by rewrite (lower_folder_arg arg Harg).
  - intros Harg images st' Hfetch Hne. unfold main.
    rewrite (lower_folder_arg arg Harg). simpl. rewrite Hfetch.
    destruct images as [|data images]; [done|].
    by rewrite (right_id_L ∅ (∪)).
Qed.

End Persistence.

(** * Further properties *)

(** ** Listing, continued *)

Section ListingMore.
Context `{L : Libraries}.

(** The loop only appends: what it is given to start with stays in front. *)
Lemma fetch_pages_acc fuel folder cursor all_images st :
  fetch_pages fuel folder cursor all_images st
  = (λ res : list (resource * string) * api_state, (all_images ++ res.1, res.2))
      <$> fetch_pages fuel folder cursor [] st.
Proof.
  revert cursor all_images st.
  induction fuel as [|fuel IH]; intros cursor all_images st; [done|].
  cbn [fetch_pages].
  destruct (resources_by_asset_folder folder 500 cursor st) as [[result|] st'].
  - destruct (falsy (page_next_cursor result)).
    + done.
    + rewrite (IH _ (all_images ++ _)), (IH _ ([] ++ _)).
      destruct (fetch_pages fuel folder (page_next_cursor result) [] st')
        as [[imgs st'']|]; simpl; [|done].
      by rewrite app_assoc.
  - simpl. by rewrite app_nil_r.
Qed.

(** Everything one folder's loop adds carries that folder. *)
Lemma fetch_pages_folder fuel folder cursor st images st' :
  fetch_pages fuel folder cursor [] st = Some (images, st') →
  Forall (λ e : resource * string, e.2 = folder) images.
Proof.
  revert cursor st images.
  induction fuel as [|fuel IH]; intros cursor st images; [done|].
  cbn [fetch_pages].
  destruct (resources_by_asset_folder folder 500 cursor st) as [[result|] st0].
  - assert (Hpage : Forall (λ e : resource * string, e.2 = folder)
                      ((λ img, (img, folder)) <$> page_resources result)).
    { apply Forall_fmap, Forall_forall. done. }
    destruct (falsy (page_next_cursor result)).
    + intros [= <- <-]. done.
    + rewrite fetch_pages_acc.
      destruct (fetch_pages fuel folder (page_next_cursor result) [] st0)
        as [[imgs st'']|] eqn:Hrest; simpl; [|done].
      intros [= <- <-]. apply Forall_app. split; [done|]. by eapply IH.
  - intros [= <- <-]. constructor.
Qed.

Lemma fetch_all_images_split (fuel : nat) (st : api_state) :
  fetch_all_images fuel st
  = match fetch_images_from_folder fuel "portfolio" st with
    | None => None
    | Some (portfolio, st1) =>
      match fetch_images_from_folder fuel "rugby" st1 with
      | None => None
      | Some (rugby, st2) => Some (portfolio ++ rugby, st2)
      end
    end.
Proof.
  unfold fetch_all_images, fetch_images_from_folder. cbn [fetch_folders].
  destruct (fetch_pages fuel "portfolio" None [] st) as [[imgs1 st1]|]; [|done].
  rewrite fetch_pages_acc.
  destruct (fetch_pages fuel "rugby" None [] st1) as [[imgs2 st2]|]; [|done].
  simpl. by rewrite fmap_app.
Qed.

(** X1: the two-folder listing is the single-folder listing of [portfolio]
    followed, from the state it leaves, by that of [rugby]; the results are
    concatenated in this order. *)
Theorem fetch_all_images_by_folder (fuel : nat) (st st2 : api_state)
    (images : list img_data) :
  fetch_all_images fuel st = Some (images, st2)
  ↔ ∃ portfolio st1 rugby,
      fetch_images_from_folder fuel "portfolio" st = Some (portfolio, st1)
      ∧ fetch_images_from_folder fuel "rugby" st1 = Some (rugby, st2)
      ∧ images = portfolio ++ rugby.
Proof.
  rewrite fetch_all_images_split. split.
  - destruct (fetch_images_from_folder fuel "portfolio" st) as [[imgs1 st1]|]; [|done].
    destruct (fetch_images_from_folder fuel "rugby" st1) as [[imgs2 st2']|] eqn:H2;
      [|done].
    intros [= <- <-]. eauto 6.
  - intros (imgs1 & st1 & imgs2 & -> & -> & ->). done.
Qed.

(** X2: every asset a listing returns carries the folder it was listed
    from: the requested one for a single-folder listing, [portfolio] or
    [rugby] for the full listing. *)
Theorem listed_images_carry_their_folder (fuel : nat) (st : api_state) :
  (∀ folder_name images st',
     fetch_images_from_folder fuel folder_name st = Some (images, st') →
     Forall (λ data, folder data = folder_name) images)
  ∧ (∀ images st',
       fetch_all_images fuel st = Some (images, st') →
       Forall (λ data, folder data = "portfolio" ∨ folder data = "rugby") images).
Proof.
  assert (Hone : ∀ st folder_name images st',
            fetch_images_from_folder fuel folder_name st = Some (images, st') →
            Forall (λ data, folder data = folder_name) images).
  { intros st0 folder_name images st'. unfold fetch_images_from_folder.
    destruct (fetch_pages fuel folder_name None [] st0) as [[imgs st1]|] eqn:Hf; [|done].
    intros [= <- <-]. apply Forall_fmap.
    eapply Forall_impl; [by eapply fetch_pages_folder|]. done. }
  split; [apply Hone|].
  intros images st'. rewrite fetch_all_images_split.
  destruct (fetch_images_from_folder fuel "portfolio" st) as [[imgs1 st1]|] eqn:H1; [|done].
  destruct (fetch_images_from_folder fuel "rugby" st1) as [[imgs2 st2]|] eqn:H2; [|done].
  intros [= <- <-]. apply Forall_app. split.
  - eapply Forall_impl; [by eapply Hone|]. simpl. auto.
  - eapply Forall_impl; [by eapply Hone|]. simpl. auto.
Qed.

End ListingMore.

(** ** The CLIP tagger, continued *)

(** Among scores that are numbers, "not smaller than" is transitive. *)
Lemma SFltb_false_trans x y z :
  is_number y → SFltb x y = false → SFltb y z = false → SFltb x z = false.
Proof.
  unfold is_number, SFltb, SFcompare.
  destruct x as [[]| []| |[] mx ex], y as [[]| []| |[] my ey], z as [[]| []| |[] mz ez];
    intros Hy; try done.
  all: repeat match goal with
       | |- context [Pos.compare_cont Eq ?p ?q] =>
           change (Pos.compare_cont Eq p q) with (Pos.compare p q)
       end.
  all: destruct (Z.compare_spec ex ey); try done.
  all: destruct (Z.compare_spec ey ez); try done.
  all: destruct (Z.compare_spec ex ez); try done; try lia.
  all: destruct (Pos.compare_spec mx my); simpl; try done.
  all: destruct (Pos.compare_spec my mz); simpl; try done.
  all: destruct (Pos.compare_spec mx mz); simpl; try done; try lia.
Qed.

#[local] Instance score_ge_total : Total score_ge.
Proof.
  intros x y. unfold score_ge.
  destruct (SFltb x.2 y.2) eqn:Hxy; [|by left]. right.
  unfold SFltb in *. rewrite (SFcompare_antisym x.2 y.2).
  by destruct (SFcompare x.2 y.2) as [[]|].
Qed.

Lemma Sorted_StronglySorted_on {A : Type} (R : relation A) (P : A → Prop) (l : list A) :
  (∀ x y z, P y → R x y → R y z → R x z) →
  Forall P l → Sorted R l → StronglySorted R l.
Proof.
  intros Htrans HP Hsorted.
  induction Hsorted as [|x l Hl IH Hhd]; [constructor|].
  apply Forall_cons in HP as [_ HP]. specialize (IH HP).
  constructor; [done|].
  destruct Hhd as [|y l' Hxy]; [constructor|].
  apply Forall_cons in HP as [Hy _].
  apply StronglySorted_inv in IH as [_ Hall].
  constructor; [done|].
  eapply Forall_impl; [exact Hall|]. intros z Hyz. by eapply Htrans.
Qed.

Lemma StronglySorted_lookup_lt {A : Type} (R : relation A) (l : list A) n m x y :
  StronglySorted R l → n < m → l !! n = Some x → l !! m = Some y → R x y.
Proof.
  intros Hs Hnm Hn Hm. rewrite <- (take_drop m l) in Hs.
  apply (StronglySorted_app_1_elem_of _ _ _ _ _ Hs).
  - apply list_elem_of_lookup. exists n. by rewrite lookup_take_lt.
  - apply list_elem_of_lookup. exists 0. by rewrite lookup_drop, Nat.add_0_r.
Qed.

(** The positions [topk] selects, best first: no selected score is smaller
    than a later selected one or than one left out. *)
Lemma topk_best k similarity indices :
  Forall is_number similarity →
  topk k similarity = Returned indices →
  (∀ n m i j si sj,
     n < m → indices !! n = Some i → indices !! m = Some j →
     similarity !! i = Some si → similarity !! j = Some sj → SFltb si sj = false)
  ∧ (∀ i j si sj,
       i ∈ indices → j ∉ indices →
       similarity !! i = Some si → similarity !! j = Some sj → SFltb si sj = false).
Proof.
  intros Hnum. unfold topk. case_decide as Hk; [|done]. intros [= <-].
  set (sorted := merge_sort score_ge (imap pair similarity)).
  assert (Hperm : sorted ≡ₚ imap pair similarity) by apply merge_sort_Permutation.
  assert (Hlook : Forall (λ x : nat * spec_float, similarity !! x.1 = Some x.2) sorted).
  { rewrite Hperm. apply imap_pair_lookup. }
  assert (Hnum' : Forall (λ x : nat * spec_float, is_number x.2) sorted).
  { apply Forall_forall. intros [i s] Hin.
    apply (proj1 (Forall_forall _ _) Hlook) in Hin as Hs. simpl in *.
    apply (proj1 (Forall_forall _ _) Hnum). by eapply list_elem_of_lookup_2. }
  assert (Hss : StronglySorted score_ge sorted).
  { apply (Sorted_StronglySorted_on _ (λ x, is_number x.2)); [|done|].
    - intros x y z Hy. unfold score_ge. by apply SFltb_false_trans.
    - apply (Sorted_merge_sort _). }
  rewrite <- fmap_take.
  assert (Hpos : ∀ n i s, (take k sorted) !! n = Some (i, s) →
                          sorted !! n = Some (i, s) ∧ similarity !! i = Some s).
  { intros n i s Hn. apply lookup_take_Some in Hn as [Hn _]. split; [done|].
    apply (proj1 (Forall_forall _ _) Hlook (i, s)). by eapply list_elem_of_lookup_2. }
  split.
  - intros n m i j si sj Hnm Hn Hm Hi Hj.
    apply list_lookup_fmap_Some in Hn as ([i' s] & -> & Hn).
    apply list_lookup_fmap_Some in Hm as ([j' t] & -> & Hm). simpl in *.
    apply Hpos in Hn as [Hn Hs]. apply Hpos in Hm as [Hm Ht].
    assert (s = si) as -> by congruence. assert (t = sj) as -> by congruence.
    apply (StronglySorted_lookup_lt score_ge sorted n m (i', si) (j', sj)); done.
  - intros i j si sj Hi Hj Hsi Hsj.
    apply list_elem_of_fmap in Hi as ([i' s] & -> & Hi). simpl in *.
    assert (s = si) as ->.
    { apply list_elem_of_lookup in Hi as [n Hn]. apply Hpos in Hn as [_ Hs]. congruence. }
    assert (Hjin : (j, sj) ∈ sorted).
    { rewrite Hperm. by apply (elem_of_lookup_imap_2 pair). }
    rewrite <- (take_drop k sorted) in Hjin, Hss.
    apply elem_of_app in Hjin as [Hjin | Hjin].
    + exfalso. apply Hj. apply list_elem_of_fmap. by exists (j, sj).
    + apply (StronglySorted_app_1_elem_of _ _ _ (i', si) (j, sj) Hss); done.
Qed.

Section TaggerMore.
Context `{L : Libraries}.

(** X3: a failure of the model gives no tags, and so does asking for more
    tags than there are scores: the request is not cut down to the labels
    there are. *)
Theorem get_clip_tags_gives_up (img : image) (labels : list string) (top_k : nat) :
  let prompts := (λ label, "a photo of " +:+ label) <$> labels in
  (clip_similarity img prompts = Raised → get_clip_tags img labels top_k = [])
  ∧ (∀ similarity,
       clip_similarity img prompts = Returned similarity →
       length similarity < top_k → get_clip_tags img labels top_k = []).
Proof.
  intros prompts. unfold get_clip_tags, get_clip_tags_try, mbind, outcome_bind.
  fold prompts. split.
  - by intros ->.
  - intros similarity -> Hlt. unfold topk. by rewrite decide_False by lia.
Qed.

(** X4: when the scores are numbers, the tags come best first and are the
    best: the score of a returned label is not smaller than that of a label
    returned after it, nor than that of any position left out. *)
Theorem get_clip_tags_are_the_best (img : image) (labels tags : list string)
    (top_k : nat) (similarity : list spec_float) :
  clip_similarity img ((λ label, "a photo of " +:+ label) <$> labels)
  = Returned similarity →
  Forall is_number similarity →
  get_clip_tags_try img labels top_k = Returned tags →
  ∃ indices,
    Forall2 (λ i t, labels !! i = Some t) indices tags
    ∧ (∀ n m i j si sj,
         n < m → indices !! n = Some i → indices !! m = Some j →
         similarity !! i = Some si → similarity !! j = Some sj →
         SFltb si sj = false)
    ∧ (∀ i j si sj,
         i ∈ indices → j ∉ indices →
         similarity !! i = Some si → similarity !! j = Some sj →
         SFltb si sj = false).
Proof.
  intros Hsim Hnum. unfold get_clip_tags_try, mbind, outcome_bind. rewrite Hsim.
  destruct (topk top_k similarity) as [indices|] eqn:Htopk; [|done].
  intros Hmap%mapM_getitem_Returned. exists indices. split; [done|].
  by apply (topk_best top_k).
Qed.

End TaggerMore.

(** ** The grayscale tag filter, continued *)

Lemma filter_filter_same {A : Type} (P : A → Prop) `{!∀ x, Decision (P x)} (l : list A) :
  filter P (filter P l) = filter P l.
Proof. rewrite list_filter_filter. apply list_filter_iff. intros x. tauto. Qed.

(** X5: the filter only removes tags, keeping the order of the others, and
    never empties a list: from a list with a tag it returns a list with a
    tag. *)
Theorem filter_bw_tags_keeps_a_tag (color_tags : list string) (saturation : spec_float) :
  filter_bw_tags color_tags saturation `sublist_of` color_tags
  ∧ (color_tags ≠ [] → filter_bw_tags color_tags saturation ≠ []).
Proof.
  unfold filter_bw_tags. destruct (SFltb SATURATION_THRESHOLD saturation); [|done].
  destruct (filter _ color_tags) as [|t kept] eqn:Hk; [done|].
  split; [|done]. rewrite <- Hk. apply sublist_filter.
Qed.

(** X6: filtering twice with the same saturation is filtering once. *)
Theorem filter_bw_tags_idempotent (color_tags : list string) (saturation : spec_float) :
  filter_bw_tags (filter_bw_tags color_tags saturation) saturation
  = filter_bw_tags color_tags saturation.
Proof.
  unfold filter_bw_tags. destruct (SFltb SATURATION_THRESHOLD saturation); [|done].
  destruct (filter _ color_tags) as [|t kept] eqn:Hk; simpl.
  - by rewrite Hk.
  - rewrite <- Hk, filter_filter_same. by rewrite Hk.
Qed.

Section SaturationDefault.
Context `{L : Libraries}.

(** X7: when the saturation cannot be measured the image counts as
    coloured, and the achromatic tags are removed as for a saturated image;
    when the measure is NaN the tags are kept as they are. *)
Theorem unmeasured_saturation_counts_as_colour (img : image) (color_tags : list string) :
  (mean_saturation img = Raised →
     filter_bw_tags color_tags (calculate_saturation img)
     = match filter (λ tag, ¬ achromatic tag) color_tags with
       | [] => color_tags
       | kept => kept
       end)
  ∧ (mean_saturation img = Returned S754_nan →
     filter_bw_tags color_tags (calculate_saturation img) = color_tags).
Proof.
  unfold calculate_saturation. split; intros ->; simpl; [|done].
  unfold filter_bw_tags. rewrite filter_achromatic.
  change (SFltb SATURATION_THRESHOLD (S754_finite false 4503599627370496 (-53)))
    with true.
  by destruct (filter _ color_tags).
Qed.

End SaturationDefault.

(** ** Downloads *)

Section Download.
Context `{L : Libraries}.

(** X8: a download succeeds exactly when the request returns, its status is
    not an error status (400 to 599), the body opens as an image, and the
    image is in RGB mode or converts to it; the result is that image. *)
Theorem download_image_Some (url : string) (img : image) :
  download_image url = Some img
  ↔ ∃ resp opened,
      requests_get url 10 = Returned resp
      ∧ ¬ (400 ≤ status_code resp < 600)%Z
      ∧ Image_open (content resp) = Returned opened
      ∧ (image_mode opened = "RGB" ∧ img = opened
         ∨ image_mode opened ≠ "RGB" ∧ image_convert opened "RGB" = Returned img).
Proof.
  unfold download_image, raise_for_status, mbind, outcome_bind, mret, outcome_ret.
  split.
  - destruct (requests_get url 10) as [resp|]; [|done].
    case_decide as Hstatus; [done|].
    destruct (Image_open (content resp)) as [opened|] eqn:Hopen; [|done].
    case_bool_decide as Hmode.
    + destruct (image_convert opened "RGB") as [converted|] eqn:Hconv; [|done].
      simpl. intros [= <-]. exists resp, opened. eauto 10.
    + simpl. intros [= <-]. exists resp, opened.
      repeat split; try done. left. split; [|done].
      by destruct (decide (image_mode opened = "RGB")).
  - intros (resp & opened & -> & Hstatus & Hopen & Hmode).
    rewrite decide_False by done. rewrite Hopen.
    destruct Hmode as [[Hmode ->] | [Hmode Hconv]].
    + by rewrite bool_decide_eq_false_2 by (by intros ?).
    + rewrite bool_decide_eq_true_2 by done. by rewrite Hconv.
Qed.

(** X9: every image a download returns is in RGB mode, conversion giving the
    mode it is asked for. *)
Theorem downloaded_images_are_RGB (url : string) (img : image) :
  convert_gives_mode →
  download_image url = Some img → image_mode img = "RGB".
Proof.
  intros Hconvert.
  unfold download_image, raise_for_status, mbind, outcome_bind, mret, outcome_ret.
  destruct (requests_get url 10) as [resp|]; [|done].
  case_decide as Hstatus; [done|].
  destruct (Image_open (content resp)) as [opened|] eqn:Hopen; [|done].
  case_bool_decide as Hmode.
  - destruct (image_convert opened "RGB") as [converted|] eqn:Hconv; [|done].
    simpl. intros [= <-]. by eapply Hconvert.
  - simpl. intros [= <-]. by destruct (decide (image_mode opened = "RGB")).
Qed.

End Download.

(** ** The colour palette, continued *)

Lemma max_list_below (k : nat) (l : list nat) :
  l ≠ [] → Forall (λ x, x < k) l → max_list l < k.
Proof.
  intros Hne Hall. induction Hall as [|x l Hx Hall IH]; [done|]. simpl.
  destruct l as [|y l]; [simpl; lia|]. specialize (IH ltac:(done)). lia.
Qed.

Lemma argsort_desc_length (counts : list nat) :
  length (argsort_desc counts) = length counts.
Proof.
  unfold argsort_desc.
  by rewrite length_fmap, (Permutation_length (merge_sort_Permutation _ _)), length_imap.
Qed.

Lemma int_of_float_byte (x : Q) :
  (0 <= x)%Q → (x <= 255)%Q → (0 ≤ int_of_float x ≤ 255)%Z.
Proof.
  unfold Qle, int_of_float. destruct x as [n d]. simpl. intros Hlo Hhi.
  rewrite Z.quot_div_nonneg by lia. split.
  - apply Z.div_pos; lia.
  - apply Z.div_le_upper_bound; lia.
Qed.

Section PaletteMore.
Context `{L : Libraries}.

Lemma palette_entry_at_color colors counts total i e :
  palette_entry_at colors counts total i = Returned e →
  ∃ color, color ∈ colors
    ∧ r e = int_of_float color.1.1
    ∧ g e = int_of_float color.1.2
    ∧ b e = int_of_float color.2.
Proof.
  unfold palette_entry_at, getitem, mbind, outcome_bind.
  destruct (colors !! i) as [color|] eqn:Hc; [|done].
  destruct (counts !! i) as [count|]; [|done].
  intros [= <-]. exists color. split; [|done]. by eapply list_elem_of_lookup_2.
Qed.

(** X10: the palette is never empty and has at most [num_colors] entries
    (one, the gray default, when [num_colors] is 0), under the contract of
    [KMeans.fit]: one label per sample of a non-empty sample, each below the
    number of clusters. *)
Theorem palette_size (img : image) (num_colors : nat) :
  kmeans_labels_samples → kmeans_labels_in_range →
  1 ≤ length (get_color_palette img num_colors)
  ∧ length (get_color_palette img num_colors) ≤ max 1 num_colors.
Proof.
  intros Hsamples Hrange. unfold get_color_palette, mbind, outcome_bind.
  destruct (thumbnail_pixels img) as [pixels|]; [|simpl; lia].
  destruct (KMeans_fit num_colors pixels) as [[colors labels]|] eqn:Hfit; [|simpl; lia].
  destruct (mapM _ _) as [entries|] eqn:Hmap; [|simpl; lia].
  cbn [try_except].
  apply mapM_Returned, Forall2_length in Hmap.
  rewrite argsort_desc_length in Hmap. rewrite <- Hmap.
  destruct (Hsamples _ _ _ _ Hfit) as [Hlen Hne].
  specialize (Hrange _ _ _ _ Hfit).
  destruct labels as [|label labels]; [by destruct pixels|].
  unfold bincount. rewrite length_fmap, length_seq.
  pose proof (max_list_below num_colors (label :: labels) ltac:(done) Hrange).
  lia.
Qed.

(** X11: every component of every palette entry is a colour byte, the
    centroids of the clustering lying in the range of the pixel values. *)
Theorem palette_entries_are_bytes (img : image) (num_colors : nat) :
  (∀ pixels colors labels,
     thumbnail_pixels img = Returned pixels →
     KMeans_fit num_colors pixels = Returned (colors, labels) →
     Forall in_gamut colors) →
  Forall byte_entry (get_color_palette img num_colors).
Proof.
  intros Hgamut. unfold get_color_palette, mbind, outcome_bind.
  assert (Hdefault : Forall byte_entry [{| r := 128; g := 128; b := 128; weight := 1 |}]).
  { repeat constructor; simpl; lia. }
  destruct (thumbnail_pixels img) as [pixels|] eqn:Hpx; [|exact Hdefault].
  destruct (KMeans_fit num_colors pixels) as [[colors labels]|] eqn:Hfit;
    [|exact Hdefault].
  destruct (mapM _ _) as [entries|] eqn:Hmap; [|exact Hdefault].
  cbn [try_except]. specialize (Hgamut _ _ _ eq_refl Hfit).
  apply mapM_Returned in Hmap. apply Forall_forall. intros e He.
  apply list_elem_of_lookup in He as [n Hn].
  destruct (Forall2_lookup_r _ _ _ _ _ Hmap Hn) as (i & _ & Hentry).
  apply palette_entry_at_color in Hentry as (color & Hcolor & Hr & Hg & Hb).
  apply (proj1 (Forall_forall _ _) Hgamut) in Hcolor as (? & ? & ? & ? & ? & ?).
  unfold byte_entry. rewrite Hr, Hg, Hb. auto using int_of_float_byte.
Qed.

End PaletteMore.

(** ** The per-image loop, continued *)

Lemma filter_bw_tags_sublist (color_tags : list string) (saturation : spec_float) :
  filter_bw_tags color_tags saturation `sublist_of` color_tags.
Proof.
  unfold filter_bw_tags. destruct (SFltb SATURATION_THRESHOLD saturation); [|done].
  destruct (filter _ color_tags) as [|t kept] eqn:Hk; [done|].
  rewrite <- Hk. apply sublist_filter.
Qed.

Section LoopMore.
Context `{L : Libraries}.

#[local] Instance downloads_dec data : Decision (downloads data).
Proof. unfold downloads. apply _. Defined.

Lemma get_clip_tags_within img labels top_k :
  length (get_clip_tags img labels top_k) ≤ top_k
  ∧ get_clip_tags img labels top_k ⊆ labels.
Proof.
  destruct (get_clip_tags_cases img labels top_k) as [-> | Htry].
  - split; [simpl; lia|]. by intros t ?%elem_of_nil.
  - apply get_clip_tags_try_Returned in Htry as (indices & Hlen & _ & HF).
    split; [rewrite <- (Forall2_length _ _ _ HF); lia|].
    intros t [n Hn]%list_elem_of_lookup.
    destruct (Forall2_lookup_r _ _ _ _ _ HF Hn) as (j & _ & Hlj).
    by eapply list_elem_of_lookup_2.
Qed.

Lemma process_step_stored results data rec :
  process_one data = Returned (Some rec) →
  process_step results data = <[public_id data := rec]> results.
Proof. intros H. unfold process_step. by rewrite H. Qed.

Lemma process_step_cases results data :
  (download_image (url data) = None ∧ process_step results data = results)
  ∨ (downloads data ∧ ∃ rec, process_one data = Returned (Some rec)
       ∧ process_step results data = <[public_id data := rec]> results).
Proof.
  destruct (download_image (url data)) as [img|] eqn:Hd.
  - right. assert (Hdl : downloads data) by (unfold downloads; by rewrite Hd).
    split; [done|]. destruct (process_one_stored data Hdl) as [rec Hrec].
    exists rec. split; [done|]. by apply process_step_stored.
  - left. split; [done|]. by apply process_step_skipped.
Qed.

(** The loop from any start: its own results laid over the start. *)
Lemma process_loop_union images (results : gmap string tag_record) :
  foldl process_step results images = foldl process_step ∅ images ∪ results.
Proof.
  revert results. induction images as [|data images IH]; intros results; simpl.
  - by rewrite (left_id_L ∅ (∪)).
  - rewrite IH, (IH (process_step ∅ data)).
    destruct (process_step_cases results data) as [[Hnone ->] | (_ & rec & Hrec & ->)].
    + rewrite (process_step_skipped ∅ data Hnone). by rewrite (right_id_L ∅ (∪)).
    + rewrite (process_step_stored ∅ data rec Hrec).
      by rewrite insert_empty, <- (assoc_L (∪)), <- insert_union_singleton_l.
Qed.

Lemma process_loop_keys images (results : gmap string tag_record) :
  dom (foldl process_step results images)
  = dom results ∪ list_to_set (public_id <$> filter downloads images).
Proof.
  revert results. induction images as [|data images IH]; intros results; simpl.
  - by rewrite (right_id_L ∅ (∪)).
  - rewrite IH, filter_cons.
    destruct (process_step_cases results data) as [[Hnone ->] | (Hd & rec & _ & ->)].
    + rewrite decide_False; [done|]. unfold downloads. rewrite Hnone. by intros [].
    + rewrite decide_True by done. csimpl.
      rewrite dom_insert_L, (comm_L (∪) {[public_id data]} (dom results)).
      by rewrite (assoc_L (∪)).
Qed.

Lemma process_loop_untouched images (results : gmap string tag_record) k :
  k ∉ public_id <$> images → foldl process_step results images !! k = results !! k.
Proof.
  revert results. induction images as [|data images IH]; intros results Hk; [done|].
  csimpl in Hk. apply not_elem_of_cons in Hk as [Hne Hk]. simpl. rewrite IH by done.
  destruct (process_step_cases results data) as [[_ ->] | (_ & rec & _ & ->)]; [done|].
  by rewrite lookup_insert_ne.
Qed.

(** Every entry of the results was stored by a turn of the loop. *)
Lemma process_loop_origin images (results : gmap string tag_record) k rec :
  foldl process_step results images !! k = Some rec →
  results !! k = Some rec
  ∨ ∃ data, data ∈ images ∧ public_id data = k ∧ process_one data = Returned (Some rec).
Proof.
  revert results. induction images as [|data images IH]; intros results; simpl; [auto|].
  intros [Hin | (data' & Hin & Hk & Hrec)]%IH.
  - destruct (process_step_cases results data) as [[_ Hs] | (_ & rec' & Hrec & Hs)];
      rewrite Hs in Hin; [auto|].
    destruct (decide (public_id data = k)) as [<-|Hne].
    + rewrite lookup_insert_eq in Hin. injection Hin as <-.
      right. exists data. split; [left|done].
    + rewrite lookup_insert_ne in Hin by done. auto.
  - right. exists data'. split; [by right|done].
Qed.

Lemma process_loop_size images (results : gmap string tag_record) :
  size (foldl process_step results images) ≤ size results + length images.
Proof.
  revert results. induction images as [|data images IH]; intros results; simpl; [lia|].
  etrans; [apply IH|].
  destruct (process_step_cases results data) as [[_ ->] | (_ & rec & _ & ->)]; [lia|].
  rewrite map_size_insert. destruct (results !! public_id data); simpl; lia.
Qed.

(** X12: the keys of the results are exactly the ids of the assets whose
    download succeeded, so there are never more entries than assets. *)
Theorem results_keys_are_the_downloaded (images : list img_data) :
  dom (process_images_only images)
  = list_to_set (public_id <$> filter downloads images)
  ∧ size (process_images_only images) ≤ length images.
Proof.
  unfold process_images_only. split.
  - by rewrite process_loop_keys, dom_empty_L, (left_id_L ∅ (∪)).
  - etrans; [apply process_loop_size|]. by rewrite map_size_empty.
Qed.

(** X13: every stored record comes from an asset of the list with that id
    whose download succeeded; it carries the asset's url and folder, at most
    5, 3, 2 and 2 tags, each from its own label set, and [all_tags] is these
    four lists one after the other. *)
Theorem stored_records_are_well_formed (images : list img_data) (k : string)
    (rec : tag_record) :
  process_images_only images !! k = Some rec →
  ∃ data, data ∈ images ∧ public_id data = k ∧ downloads data
    ∧ tr_url rec = url data ∧ tr_folder rec = folder data
    ∧ tr_all_tags rec
      = tr_content rec ++ tr_style rec ++ tr_lighting rec ++ tr_colors rec
    ∧ (length (tr_content rec) ≤ 5 ∧ tr_content rec ⊆ CONTENT_LABELS)
    ∧ (length (tr_style rec) ≤ 3 ∧ tr_style rec ⊆ STYLE_LABELS)
    ∧ (length (tr_lighting rec) ≤ 2 ∧ tr_lighting rec ⊆ LIGHTING_LABELS)
    ∧ (length (tr_colors rec) ≤ 2 ∧ tr_colors rec ⊆ COLOR_LABELS).
Proof.
  intros Hk. unfold process_images_only in Hk.
  apply process_loop_origin in Hk as [Hk | (data & Hin & Hid & Hrec)];
    [by rewrite lookup_empty in Hk|].
  exists data. split; [done|]. split; [done|].
  unfold process_one in Hrec. unfold downloads.
  destruct (download_image (url data)) as [img|]; [|done].
  injection Hrec as <-. simpl. split; [done|].
  repeat split; try apply get_clip_tags_within.
  - etrans; [apply sublist_length, filter_bw_tags_sublist|].
    apply get_clip_tags_within.
  - etrans; [apply sublist_subseteq, filter_bw_tags_sublist|].
    apply get_clip_tags_within.
Qed.

(** X14: when an id occurs more than once, the last of its assets that the
    loop stores is the one kept: an asset that is stored and has no later
    asset with its id is found under its id, whatever came before. *)
Theorem last_stored_asset_wins (pre post : list img_data) (data : img_data)
    (rec : tag_record) :
  process_one data = Returned (Some rec) →
  public_id data ∉ public_id <$> post →
  process_images_only (pre ++ data :: post) !! public_id data = Some rec.
Proof.
  intros Hrec Hpost. unfold process_images_only. rewrite foldl_app. simpl.
  rewrite process_loop_untouched by done.
  by rewrite (process_step_stored _ data rec Hrec), lookup_insert_eq.
Qed.

(** X15: the results of a list of assets followed by another are those of
    the second laid over those of the first, as the incremental merge lays
    new results over the store. *)
Theorem results_of_concatenation (first second : list img_data) :
  process_images_only (first ++ second)
  = process_images_only second ∪ process_images_only first.
Proof.
  unfold process_images_only. rewrite foldl_app. apply process_loop_union.
Qed.

(** No download, no entry. *)
Lemma process_loop_all_skipped images (results : gmap string tag_record) :
  Forall (λ data, download_image (url data) = None) images →
  foldl process_step results images = results.
Proof.
  induction 1 as [|data images Hd _ IH]; simpl; [done|].
  by rewrite process_step_skipped.
Qed.

End LoopMore.

(** ** Persistence, continued *)

Lemma lower_ascii_idempotent (c : ascii) : lower_ascii (lower_ascii c) = lower_ascii c.
Proof. by destruct c as [[] [] [] [] [] [] [] []]. Qed.

Lemma lower_idempotent (s : string) : lower (lower s) = lower s.
Proof.
  induction s as [|c s IH]; [done|]. simpl. by rewrite lower_ascii_idempotent, IH.
Qed.

Section PersistenceMore.
Context `{L : Libraries}.

(** X16: a full run that lists assets and downloads none of them writes the
    empty mapping: whatever the store held is gone. *)
Theorem full_run_without_downloads_empties_store (fuel : nat) (st st' : api_state)
    (file : store_file) (images : list img_data) :
  fetch_all_images fuel st = Some (images, st') →
  images ≠ [] →
  Forall (λ data, download_image (url data) = None) images →
  process_all_images fuel st file = Some (Parsed (JObject ∅), st').
Proof.
  intros Hfetch Hne Hnone. unfold process_all_images. rewrite Hfetch.
  destruct images as [|data images]; [done|].
  unfold process_images_only. by rewrite process_loop_all_skipped.
Qed.

(** X17: of the command line only the second word counts, and only up to
    letter case; when it names neither folder the run exits with status 1,
    with no request made and the store as it was. *)
Theorem folder_argument_handling (prog prog' arg : string) (rest : list string)
    (fuel : nat) (st : api_state) (file : store_file) :
  main (prog :: arg :: rest) fuel st file = main [prog'; lower arg] fuel st file
  ∧ (lower arg ∉ ["portfolio"; "rugby"] →
     main (prog :: arg :: rest) fuel st file
     = Some {| how := SysExit 1; tags_json := file; api_after := st |}).
Proof.
  unfold main. rewrite lower_idempotent. split; [done|].
  intros Harg. by rewrite bool_decide_eq_false_2.
Qed.



(** X20: a store file that parses to something else than an object ends an
    incremental run with an uncaught exception and the file as it was: at
    once for a value without length, at the merge, after all downloads, for
    an array or a string; unless the folder lists nothing, in which case the
    run completes. *)
Theorem store_that_is_no_mapping (prog arg : string) (fuel : nat) (st : api_state) :
  lower arg ∈ ["portfolio"; "rugby"] →
  main [prog; arg] fuel st (Parsed JUnsized)
  = Some {| how := Uncaught; tags_json := Parsed JUnsized; api_after := st |}
  ∧ (∀ n images st',
       fetch_images_from_folder fuel (lower arg) st = Some (images, st') →
       main [prog; arg] fuel st (Parsed (JSized n))
       = Some {| how := if images is [] then Completed else Uncaught;
                 tags_json := Parsed (JSized n);
                 api_after := st' |}).
Proof.
  intros Harg. unfold main. rewrite (lower_folder_arg arg Harg). split; [done|].
  intros n images st' Hfetch. cbn [load_existing_tags]. rewrite Hfetch.
  by destruct images.
Qed.

(** X21: when the first listing request of an incremental run fails, the
    run completes without touching the store. *)
Theorem incremental_run_with_failed_listing (prog arg : string) (fuel : nat)
    (st st' : api_state) (file : store_file) (existing_tags : json_doc) :
  lower arg ∈ ["portfolio"; "rugby"] →
  load_existing_tags file = Returned existing_tags →
  resources_by_asset_folder (lower arg) 500 None st = (Raised, st') →
  main [prog; arg] (S fuel) st file
  = Some {| how := Completed; tags_json := file; api_after := st' |}.
Proof.
  intros Harg Hload Hreq. unfold main, fetch_images_from_folder.
  rewrite (lower_folder_arg arg Harg), Hload. cbn [fetch_pages].
  by rewrite Hreq.
Qed.

End PersistenceMore.

(** * Examples on the sample libraries *)

Lemma sample_quotient (count total : nat) :
  0 < total → (quotient count total == Z.of_nat count # Pos.of_nat total)%Q.
Proof.
  intros Ht. destruct total as [|m]; [lia|].
  unfold quotient, Qdiv, Qinv, Qmult, Qeq. simpl.
  rewrite Pos.of_nat_succ. lia.
Qed.

Lemma sample_division_rounds : @division_rounds sample_libraries.
Proof.
  split.
  - intros count total Ht Hc. simpl.
    pose proof (sample_quotient count total Ht) as Hq.
    assert (0 <= Z.of_nat count # Pos.of_nat total)%Q
      by (unfold Qle; simpl; lia).
    unfold unit_roundoff. change (2 ^ 53)%positive with 9007199254740992%positive.
    split; lra.
  - intros c1 c2 total Hc. simpl. unfold Qle. simpl. nia.
Qed.

Lemma sample_kmeans_labels_samples : @kmeans_labels_samples sample_libraries.
Proof.
  intros k pixels colors labels. simpl. unfold sample_KMeans_fit.
  case_decide as Hk; [|done]. intros [= <- <-].
  rewrite length_fmap, length_seq. split; [done|].
  destruct pixels; [simpl in Hk; lia|done].
Qed.


(** A store file that does not parse: the load raises and the run ends
    there, instead of going on with an empty mapping. *)
Lemma corrupt_store_is_fatal :
  load_existing_tags Unparsable = Raised
  ∧ load_existing_tags Unparsable ≠ Returned (JObject ∅)
  ∧ @main sample_libraries ["classify_cloudinary.py"; "rugby"] 5 0 Unparsable
    = Some (@Build_run_end sample_libraries Uncaught Unparsable 0).
Proof. split; [reflexivity|]. split; [discriminate|]. vm_compute. reflexivity. Qed.

(** The content taxonomy on a sample image: five distinct content labels. *)
Lemma classify_within_taxonomy_witness :
  length (@get_clip_tags sample_libraries "https://res/p1" CONTENT_LABELS 5) ≤ 5
  ∧ (∀ t, t ∈ @get_clip_tags sample_libraries "https://res/p1" CONTENT_LABELS 5 →
          t ∈ CONTENT_LABELS)
  ∧ NoDup (@get_clip_tags sample_libraries "https://res/p1" CONTENT_LABELS 5).
Proof.
  apply (classify_within_taxonomy (L := sample_libraries) "https://res/p1"
           {| tx_name := "content"; tx_labels := CONTENT_LABELS;
              tx_top_k := TAGS_PER_IMAGE |}).
  left.
Defined.

Lemma filter_bw_tags_spec_witness :
  filter_bw_tags ["Grayscale"; "warm colors"; "duotone"]
    (S754_finite false 7205759403792794 (-57))
  = ["Grayscale"; "warm colors"; "duotone"]
  ∧ filter_bw_tags ["Grayscale"; "warm colors"; "duotone"]
      (S754_finite false 8106479329266893 (-53))
    = ["warm colors"]
  ∧ filter_bw_tags ["Grayscale"; "duotone"] (S754_finite false 8106479329266893 (-53))
    = ["Grayscale"; "duotone"].
Proof.
  split; [|split].
  - apply (proj1 (filter_bw_tags_spec _ _)). reflexivity.
  - apply (proj1 (proj2 (filter_bw_tags_spec
             ["Grayscale"; "warm colors"; "duotone"]
             (S754_finite false 8106479329266893 (-53))))).
    + reflexivity.
    + discriminate.
  - apply (proj2 (proj2 (filter_bw_tags_spec _ _))); reflexivity.
Defined.

Lemma palette_weights_witness :
  (Qabs (total_weight (@get_color_palette sample_libraries "https://res/p1" 5) - 1)
   <= 1 # 1000000)%Q
  ∧ by_weight (@get_color_palette sample_libraries "https://res/p1" 5).
Proof.
  exact (palette_weights (L := sample_libraries) "https://res/p1" 5
           sample_division_rounds sample_kmeans_labels_samples).
Defined.

Lemma photo_date_priority_witness :
  @get_photo_date sample_libraries "https://res/p1" = Some (PStr "2024-12-25T14:30:45")
  ∧ @photo_date_of sample_libraries "https://res/r1" (sample_image "r1" "rugby")
    = PStr "not a date"
  ∧ @photo_date_of sample_libraries "https://res/p3" (sample_image "p3" "portfolio")
    = PStr "2024-01-01T00:00:00Z".
Proof.
  split; [|split].
  - apply (proj1 (photo_date_priority (L := sample_libraries) "https://res/p1"
                    (sample_image "p1" "portfolio"))
             [(271%N, PStr "Canon"); (306%N, PStr "2025:01:01 00:00:00");
              (36867%N, PStr "2024:12:25 14:30:45")]
             (PStr "2024:12:25 14:30:45")); reflexivity.
  - apply (proj1 (proj2 (photo_date_priority (L := sample_libraries) "https://res/r1"
                           (sample_image "r1" "rugby")))
             [(306%N, PStr "not a date")] (PStr "not a date")); reflexivity.
  - apply (proj2 (proj2 (photo_date_priority (L := sample_libraries) "https://res/p3"
                           (sample_image "p3" "portfolio")))).
    left. reflexivity.
Defined.

(** [portfolio] is listed in two pages; [rugby] answers one page and fails
    the next request: all of [portfolio] and the first page of [rugby] are
    returned. *)
Lemma listing_failure_is_folder_local_witness :
  @fetch_all_images sample_libraries 5 0 = Some (sample_images, 4).
Proof.
  refine (proj2 (listing_failure_is_folder_local (L := sample_libraries)
                   ["portfolio"; "rugby"] 0 4
                   [(sample_portfolio_pages, false); (sample_rugby_pages, true)] 5 _ _)
            sample_portfolio_pages sample_rugby_pages eq_refl eq_refl).
  - eapply listings_cons.
    + eapply listing_next; [reflexivity | reflexivity |].
      eapply listing_last; reflexivity.
    + eapply listings_cons; [|apply listings_nil].
      eapply listing_next; [reflexivity | reflexivity |].
      eapply listing_failed; reflexivity.
  - repeat constructor.
Defined.

(** Of the four sample assets the download of [p2] fails: three entries. *)
Lemma failed_download_skips_one_witness :
  size (@process_images_only sample_libraries sample_images) = 3
  ∧ @process_images_only sample_libraries sample_images !! "p2" = None.
Proof.
  pose proof (failed_download_skips_one (L := sample_libraries)
                [sample_image "p1" "portfolio"]
                [sample_image "p3" "portfolio"; sample_image "r1" "rugby"]
                (sample_image "p2" "portfolio")) as H.
  destruct H as (Hsize & _ & Hbad & _).
  - apply (bool_decide_unpack _). vm_compute. exact I.
  - reflexivity.
  - repeat constructor; eexists; vm_compute; reflexivity.
  - split; [exact Hsize | exact Hbad].
Defined.



Lemma get_clip_tags_exactly_top_k_witness :
  length (@get_clip_tags sample_libraries "https://res/p1" COLOR_LABELS 2) = 2.
Proof.
  refine (proj1 (proj2 (proj1 (get_clip_tags_exactly_top_k (L := sample_libraries)
                          "https://res/p1" COLOR_LABELS 2 _)
                   ["complementary colors"; "analogous colors"] _))).
  - vm_compute. lia.
  - vm_compute. reflexivity.
Defined.

(** ** Listing and the upload date *)

Section ListingTrace.
Context `{L : Libraries}.

Lemma fetch_pages_trace fuel folder cursor st images st' :
  fetch_pages fuel folder cursor [] st = Some (images, st') →
  ∃ pages failed,
    listing folder cursor st pages failed st' ∧ images = tagged folder pages.
Proof.
  revert cursor st images.
  induction fuel as [|fuel IH]; intros cursor st images; [done|].
  cbn [fetch_pages].
  destruct (resources_by_asset_folder folder 500 cursor st) as [[result|] st0] eqn:Hreq.
  - destruct (falsy (page_next_cursor result)) eqn:Hlast.
    + intros [= <- <-]. exists [result], false. split; [by apply listing_last|].
      by rewrite tagged_cons, app_nil_r.
    + rewrite fetch_pages_acc.
      destruct (fetch_pages fuel folder (page_next_cursor result) [] st0)
        as [[imgs st'']|] eqn:Hrest; simpl; [|done].
      intros [= <- <-]. apply IH in Hrest as (pages & failed & Hl & ->).
      exists (result :: pages), failed. split; [by eapply listing_next|].
      by rewrite tagged_cons.
  - intros [= <- <-]. exists [], true. split; [by apply listing_failed|done].
Qed.

(** X22: a single-folder listing returns nothing but what the backend
    answered: its result is the resources of a run of pages, requested one
    cursor after the other from no cursor, in the order of the answers, up
    to the end of the listing or to the first failed request. *)
Theorem listed_images_come_from_the_pages (fuel : nat) (folder_name : string)
    (st st' : api_state) (images : list img_data) :
  fetch_images_from_folder fuel folder_name st = Some (images, st') →
  ∃ pages failed,
    listing folder_name None st pages failed st'
    ∧ images = to_img_data <$> tagged folder_name pages.
Proof.
  unfold fetch_images_from_folder.
  destruct (fetch_pages fuel folder_name None [] st) as [[imgs st1]|] eqn:Hf; [|done].
  intros [= <- <-]. apply fetch_pages_trace in Hf as (pages & failed & Hl & ->).
  eauto.
Qed.

(** X23: an asset the listing gives no creation date gets the empty string
    for it, and when its image has no EXIF date either, the empty string is
    the date of its record. *)
Theorem missing_upload_date_is_empty (res : resource) (folder_name : string)
    (img : image) :
  res_created_at res = None →
  created_at (to_img_data (res, folder_name)) = ""
  ∧ (get_photo_date img = None →
     photo_date_of img (to_img_data (res, folder_name)) = PStr "").
Proof.
  intros Hnone. unfold photo_date_of, to_img_data. simpl. rewrite Hnone.
  split; [done|]. by intros ->.
Qed.

End ListingTrace.

(** ** Examples for the further properties *)

Lemma sample_kmeans_labels_in_range : @kmeans_labels_in_range sample_libraries.
Proof.
  intros k pixels colors labels. simpl. unfold sample_KMeans_fit.
  case_decide as Hk; [|done]. intros [= <- <-].
  apply Forall_fmap, Forall_forall. intros i _. simpl.
  apply Nat.mod_upper_bound. lia.
Qed.

Lemma moded_convert_gives_mode : @convert_gives_mode moded_libraries.
Proof. intros img mode img'. simpl. by intros [= <-]. Qed.

Lemma get_clip_tags_are_the_best_witness :
  ∃ indices,
    Forall2 (λ i t, ["sea"; "a mountain"; "sky"] !! i = Some t) indices ["a mountain"]
    ∧ (∀ n m i j si sj,
         n < m → indices !! n = Some i → indices !! m = Some j →
         [S754_finite false 14 0; S754_finite false 21 0; S754_finite false 14 0] !! i
         = Some si →
         [S754_finite false 14 0; S754_finite false 21 0; S754_finite false 14 0] !! j
         = Some sj →
         SFltb si sj = false)
    ∧ (∀ i j si sj,
         i ∈ indices → j ∉ indices →
         [S754_finite false 14 0; S754_finite false 21 0; S754_finite false 14 0] !! i
         = Some si →
         [S754_finite false 14 0; S754_finite false 21 0; S754_finite false 14 0] !! j
         = Some sj →
         SFltb si sj = false).
Proof.
  apply (get_clip_tags_are_the_best (L := sample_libraries) "https://res/p1"
           ["sea"; "a mountain"; "sky"] ["a mountain"] 1
           [S754_finite false 14 0; S754_finite false 21 0; S754_finite false 14 0]).
  - reflexivity.
  - repeat constructor; discriminate.
  - vm_compute. reflexivity.
Defined.

Lemma downloaded_images_are_RGB_witness :
  @download_image moded_libraries "https://res/p3" = Some ("https://res/p3", "RGB")
  ∧ @image_mode moded_libraries ("https://res/p3", "RGB") = "RGB".
Proof.
  split; [vm_compute; reflexivity|].
  apply (downloaded_images_are_RGB (L := moded_libraries) "https://res/p3").
  - exact moded_convert_gives_mode.
  - vm_compute. reflexivity.
Defined.

Lemma palette_size_witness :
  1 ≤ length (@get_color_palette sample_libraries "https://res/p1" 5)
  ∧ length (@get_color_palette sample_libraries "https://res/p1" 5) ≤ 5.
Proof.
  exact (palette_size (L := sample_libraries) "https://res/p1" 5
           sample_kmeans_labels_samples sample_kmeans_labels_in_range).
Defined.

Lemma palette_entries_are_bytes_witness :
  Forall byte_entry (@get_color_palette sample_libraries "https://res/p1" 5).
Proof.
  apply (palette_entries_are_bytes (L := sample_libraries) "https://res/p1" 5).
  intros pixels colors labels [= <-]. intros [= <- _].
  repeat constructor; by vm_compute.
Defined.

Lemma stored_records_are_well_formed_witness :
  ∃ data, data ∈ sample_images ∧ public_id data = "p3"
    ∧ @downloads sample_libraries data.
Proof.
  destruct (stored_records_are_well_formed (L := sample_libraries) sample_images "p3"
              ({| tr_url := "https://res/p3";
                  tr_folder := "portfolio";
                  tr_created_at := PStr "2024-01-01T00:00:00Z";
                  tr_content := @get_clip_tags sample_libraries "https://res/p3"
                                  CONTENT_LABELS 5;
                  tr_style := @get_clip_tags sample_libraries "https://res/p3"
                                STYLE_LABELS 3;
                  tr_lighting := @get_clip_tags sample_libraries "https://res/p3"
                                   LIGHTING_LABELS 2;
                  tr_colors := ["complementary colors"; "analogous colors"];
                  tr_color_palette := @get_color_palette sample_libraries
                                        "https://res/p3" 5;
                  tr_all_tags :=
                    @get_clip_tags sample_libraries "https://res/p3" CONTENT_LABELS 5
                    ++ @get_clip_tags sample_libraries "https://res/p3" STYLE_LABELS 3
                    ++ @get_clip_tags sample_libraries "https://res/p3" LIGHTING_LABELS 2
                    ++ ["complementary colors"; "analogous colors"] |}))
    as (data & Hin & Hid & Hd & _).
  - vm_compute. reflexivity.
  - exists data. auto.
Defined.

(** Two assets with the id [p1]: the record of the second is the one kept. *)
Lemma last_stored_asset_wins_witness :
  tr_folder <$> (@process_images_only sample_libraries
                   [sample_image "p1" "portfolio"; sample_image "p1" "rugby";
                    sample_image "p3" "portfolio"] !! "p1")
  = Some "rugby".
Proof.
  destruct (@process_one_stored sample_libraries (sample_image "p1" "rugby"))
    as [rec Hrec]; [eexists; vm_compute; reflexivity|].
  pose proof (last_stored_asset_wins (L := sample_libraries)
                [sample_image "p1" "portfolio"] [sample_image "p3" "portfolio"]
                (sample_image "p1" "rugby") rec Hrec) as Hwin.
  simpl in Hwin. rewrite Hwin.
  - unfold process_one in Hrec.
    destruct (@download_image sample_libraries (url (sample_image "p1" "rugby")));
      [|discriminate].
    by injection Hrec as <-.
  - rewrite list_elem_of_singleton. discriminate.
Defined.

Lemma full_run_without_downloads_empties_store_witness :
  @process_all_images p2_only_libraries 5 0 (Parsed (JObject sample_prior))
  = Some (Parsed (JObject ∅), 2).
Proof.
  apply (full_run_without_downloads_empties_store (L := p2_only_libraries) 5 0 2
           (Parsed (JObject sample_prior)) [sample_image "p2" "portfolio"]).
  - vm_compute. reflexivity.
  - discriminate.
  - repeat constructor.
Defined.



Lemma store_that_is_no_mapping_witness :
  @main sample_libraries ["classify_cloudinary.py"; "Portfolio"] 5 0 (Parsed JUnsized)
  = Some (@Build_run_end sample_libraries Uncaught (Parsed JUnsized) 0)
  ∧ @main sample_libraries ["classify_cloudinary.py"; "Portfolio"] 5 0
      (Parsed (JSized 3))
    = Some (@Build_run_end sample_libraries Uncaught (Parsed (JSized 3)) 2).
Proof.
  destruct (store_that_is_no_mapping (L := sample_libraries)
              "classify_cloudinary.py" "Portfolio" 5 0) as [Hunsized Hsized].
  - apply (bool_decide_unpack _). vm_compute. exact I.
  - split; [exact Hunsized|].
    apply (Hsized 3 [sample_image "p1" "portfolio"; sample_image "p2" "portfolio";
                     sample_image "p3" "portfolio"] 2).
    vm_compute. reflexivity.
Defined.

Lemma incremental_run_with_failed_listing_witness :
  @main p2_only_libraries ["classify_cloudinary.py"; "rugby"] 1 0
    (Parsed (JObject sample_prior))
  = Some (@Build_run_end p2_only_libraries Completed (Parsed (JObject sample_prior)) 1).
Proof.
  apply (incremental_run_with_failed_listing (L := p2_only_libraries)
           "classify_cloudinary.py" "rugby" 0 0 1 (Parsed (JObject sample_prior))
           (JObject sample_prior)).
  - apply (bool_decide_unpack _). vm_compute. exact I.
  - reflexivity.
  - reflexivity.
Defined.

Lemma listed_images_come_from_the_pages_witness :
  ∃ pages failed,
    @listing sample_libraries "rugby" None 0 pages failed 2
    ∧ [sample_image "r1" "rugby"] = to_img_data <$> tagged "rugby" pages.
Proof.
  apply (listed_images_come_from_the_pages (L := sample_libraries) 5 "rugby" 0 2).
  vm_compute. reflexivity.
Defined.

Lemma missing_upload_date_is_empty_witness :
  created_at (to_img_data ({| res_public_id := "p9";
                              res_secure_url := "https://res/p9";
                              res_created_at := None |}, "portfolio")) = "".
Proof.
  apply (missing_upload_date_is_empty (L := sample_libraries)
           {| res_public_id := "p9"; res_secure_url := "https://res/p9";
              res_created_at := None |} "portfolio" "https://res/p9").
  reflexivity.
Defined.
